(** * Credit-prediction API: the artifact store and the inference dispatcher

    A shallow embedding of [src/main.py]: the request model
    ([PredictionRequest]), the model manager ([ModelManager.load_models],
    [ModelManager.predict]) and the [/predict] endpoint, followed by the
    properties of the dispatcher.

    Conventions of the embedding.
    - A Python [float] is an IEEE 754 binary64 value: Rocq's primitive
      [float], with [<=?], [<?] and [=?] the IEEE comparisons (every
      comparison with NaN is [false]).
    - A Python [str] is a [string]; a literal with accents is the sequence
      of its UTF-8 bytes.
    - A [dict] is an association list in insertion order, without duplicate
      keys: [list(d.keys())[0]] is the key of its first pair.
    - Code that may raise returns a [result]: [Raise e] carries [str(e)] of
      an exception that [except Exception] catches.
    - The trained models, the scaler, numpy and the file system are outside
      the repository: models and scalers are records of their methods (a
      scaler also of its truth value, which [predict] tests), the
      file system is a record of what [Path.exists] and [joblib.load]
      answer, and numpy's array construction is a parameter of the
      dispatcher. *)

From Stdlib Require Import List String Ascii Bool Arith ZArith Lia.
From Stdlib Require Import Floats DecimalString.
Import ListNotations.

#[local] Set Warnings "-inexact-float".

Local Open Scope list_scope.
Local Open Scope string_scope.

(** ** Exceptions *)

Inductive result (A : Type) : Type :=
| Ok (a : A)
| Raise (e : string).

Arguments Ok {A} a.
Arguments Raise {A} e.

Definition bind {A B : Type} (c : result A) (k : A -> result B) : result B :=
  match c with
  | Ok a => k a
  | Raise e => Raise e
  end.

Notation "x <- c ;; k" := (bind c (fun x => k))
  (at level 61, c at next level, right associativity).

Definition is_ok {A : Type} (c : result A) : bool :=
  match c with
  | Ok _ => true
  | Raise _ => false
  end.

(** What a call of a handler or of the dispatcher ends in: a returned value
    or [raise HTTPException(status_code=..., detail=...)]. *)
Inductive response (A : Type) : Type :=
| Return (a : A)
| HTTPException (status_code : nat) (detail : string).

Arguments Return {A} a.
Arguments HTTPException {A} status_code detail.

(** ** Python values *)

(** [bool(x)] of a float: false exactly for [0.0] and [-0.0]. *)
Definition float_truthy (x : float) : bool := negb (x =? 0)%float.

(** [x >= y] on floats. *)
Definition float_ge (x y : float) : bool := (y <=? x)%float.

(** The builtin [max(xs)]: the first item is the candidate, and a later item
    replaces it when [item > candidate]. *)
Definition py_max (xs : list float) : result float :=
  match xs with
  | [] => Raise "max() arg is an empty sequence"
  | x :: rest =>
      Ok (fold_left (fun cur item => if (cur <? item)%float then item else cur) rest x)
  end.

(** [xs[0]] on the array a model returns. *)
Definition getitem0 {A : Type} (xs : list A) : result A :=
  match xs with
  | [] => Raise "index 0 is out of bounds for axis 0 with size 0"
  | x :: _ => Ok x
  end.

(** *** Dictionaries with string keys *)

Section Dict.
Context {V : Type}.

Definition dict := list (string * V).

Fixpoint dict_get (k : string) (d : dict) : option V :=
  match d with
  | [] => None
  | (k', v) :: d' => if String.eqb k k' then Some v else dict_get k d'
  end.

(** [d[k] = v]: an existing key keeps its place, a new one goes last. *)
Fixpoint dict_set (k : string) (v : V) (d : dict) : dict :=
  match d with
  | [] => [(k, v)]
  | (k', v') :: d' =>
      if String.eqb k k' then (k', v) :: d' else (k', v') :: dict_set k v d'
  end.

Definition dict_keys (d : dict) : list string := map fst d.

(** [k in d]. *)
Definition dict_in (k : string) (d : dict) : bool :=
  match dict_get k d with
  | Some _ => true
  | None => false
  end.

(** [d[k]] as an expression: [KeyError(k)], whose [str] is the [repr] of
    the key. *)
Definition dict_getitem (k : string) (d : dict) : result V :=
  match dict_get k d with
  | Some v => Ok v
  | None => Raise ("'" ++ k ++ "'")
  end.
End Dict.

Arguments dict V : clear implicits.

(** ** Trained objects *)

Definition matrix := list (list float).

Module Scaler.
(** [truthy] is [bool(scaler)], what [if self.scaler] tests on a loaded
    object: false only for an object that defines itself falsy (a
    [__bool__] answering [False], a [__len__] answering 0). *)
Record t := {
  truthy : bool;
  transform : matrix -> result matrix
}.
End Scaler.

Module Model.
(** [predict_proba] is [None] when [hasattr(model, 'predict_proba')] is
    false. *)
Record t := {
  predict : matrix -> result (list float);
  predict_proba : option (matrix -> result (list (list float)))
}.
End Model.

(** ** The request and the response models *)

Module PredictionRequest.
(** [model_name] is [Optional[str]]: [None] is Python's [None]. *)
Record t := {
  features : list float;
  model_name : option string
}.

Definition validate_features (v : list float) : result (list float) :=
  if negb (List.length v =? 6)%nat
  then Raise "São necessárias 6 características"
  else Ok v.

(** A JSON body whose fields have the declared types; [body_model_name] is
    [None] when the field is left out and [Some None] for [null]. *)
Record body := {
  body_features : list float;
  body_model_name : option (option string)
}.

(** Construction of the model from a body: the field validator runs on
    [features], and an omitted [model_name] takes its default. *)
Definition make (b : body) : result t :=
  v <- validate_features (body_features b) ;;
  Ok {| features := v;
        model_name := match body_model_name b with
                      | Some n => n
                      | None => Some "logistic_regression"
                      end |}.
End PredictionRequest.

Module PredictionResponse.
Record t := {
  prediction : float;
  probability : option float;
  confidence : string;
  model_used : string;
  recommendation : string
}.
End PredictionResponse.

(** ** Logging and the file system *)

Inductive level := INFO | WARNING | ERROR.

Definition log := list (level * string).

(** [logger.info(msg)], [logger.warning(msg)], [logger.error(msg)]. *)
Definition emit (lg : log) (lv : level) (msg : string) : log := (lg ++ [(lv, msg)])%list.

(** The working directory as [load_models] sees it: [path_exists p] is
    [Path(p).exists()], and [load_scaler p], [load_model p] are
    [joblib.load(p)] at the scaler's and at a model's path. *)
Record FileSystem := {
  path_exists : string -> bool;
  load_scaler : string -> result Scaler.t;
  load_model : string -> result Model.t
}.

(** [str(n)] of a natural number, as an f-string prints it. *)
Definition str_of_nat (n : nat) : string := NilZero.string_of_uint (Nat.to_uint n).

(** ** The model manager *)

Module ModelManager.

Record t := {
  models : dict Model.t;
  scaler : option Scaler.t;
  model_names : dict string
}.

Definition set_models (f : dict Model.t -> dict Model.t) (self : t) : t :=
  {| models := f (models self); scaler := scaler self; model_names := model_names self |}.

Definition set_scaler (s : option Scaler.t) (self : t) : t :=
  {| models := models self; scaler := s; model_names := model_names self |}.

(** *** [load_models] *)

Definition load_scaler_step (fs : FileSystem) (st : t * log) : t * log :=
  let (self, lg) := st in
  if path_exists fs "scaler.joblib" then
    match load_scaler fs "scaler.joblib" with
    | Ok s => (set_scaler (Some s) self, emit lg INFO "Scaler carregado")
    | Raise e => (self, emit lg WARNING ("Erro scaler: " ++ e))
    end
  else st.

(** The body of the loop over [self.model_names.keys()]. *)
Definition load_model_step (fs : FileSystem) (st : t * log) (model_key : string) : t * log :=
  let (self, lg) := st in
  let model_path := model_key ++ ".joblib" in
  if path_exists fs model_path then
    match load_model fs model_path with
    | Ok m =>
        (set_models (dict_set model_key m) self,
         emit lg INFO ("Modelo " ++ model_key ++ " carregado"))
    | Raise e => (self, emit lg ERROR ("Erro " ++ model_key ++ ": " ++ e))
    end
  else st.

Definition load_models (fs : FileSystem) (self : t) : t * log :=
  let st := (self, emit [] INFO "Carregando modelos...") in
  let st := load_scaler_step fs st in
  let st := fold_left (load_model_step fs) (dict_keys (model_names self)) st in
  let (self', lg) := st in
  (self', emit lg INFO (str_of_nat (List.length (models self')) ++ " modelos disponíveis")).

(** [__init__]. *)
Definition init (fs : FileSystem) : t * log :=
  load_models fs
    {| models := [];
       scaler := None;
       model_names := [("logistic_regression", "Regressão Logística");
                       ("random_forest", "Random Forest");
                       ("gradient_boosting", "Gradient Boosting")] |}.

(** *** [predict] *)

(** The first statement of [predict]: the key the rest of the call uses,
    or [None] when the 503 is raised. *)
Definition select_model (self : t) (model_name : option string) : option string :=
  let requested_in :=
    match model_name with
    | Some k => dict_in k (models self)
    | None => false
    end in
  if negb requested_in then
    let available := dict_keys (models self) in
    match available with
    | [] => None
    | first :: _ => Some first
    end
  else model_name.

Definition confidence_label (score : float) : string :=
  if float_ge score 0.8 then "Alto"
  else if float_ge score 0.6 then "Médio"
  else "Baixo".

Definition recommendation_text (prediction : float) : string :=
  if float_ge prediction 0.7 then "Aprovação recomendada"
  else if float_ge prediction 0.4 then "Analisar com cuidado"
  else "Não recomendado".

(** [score = probability if probability else prediction]: the test is the
    truth value of [probability]. *)
Definition score_of (probability : option float) (prediction : float) : float :=
  match probability with
  | Some p => if float_truthy p then p else prediction
  | None => prediction
  end.

Section Dispatcher.
(** [np.array(features).reshape(1, -1)]. *)
Variable np_array_reshape : list float -> result matrix.

(** The probability step: [None] without [predict_proba]. *)
Definition probability_of (model : Model.t) (X : matrix) : result (option float) :=
  match Model.predict_proba model with
  | Some predict_proba =>
      rows <- predict_proba X ;;
      probs <- getitem0 rows ;;
      p <- py_max probs ;;
      Ok (Some p)
  | None => Ok None
  end.

(** The body of the [try]. [if self.scaler] holds when a scaler was loaded
    and is truthy; [None] and a falsy scaler leave the matrix as built. *)
Definition predict_body (self : t) (features : list float) (model_name : string)
  : result PredictionResponse.t :=
  X <- np_array_reshape features ;;
  X <- match scaler self with
       | Some s => if Scaler.truthy s then Scaler.transform s X else Ok X
       | None => Ok X
       end ;;
  model <- dict_getitem model_name (models self) ;;
  ys <- Model.predict model X ;;
  prediction <- getitem0 ys ;;
  probability <- probability_of model X ;;
  let score := score_of probability prediction in
  let confidence := confidence_label score in
  let recommendation := recommendation_text prediction in
  name <- dict_getitem model_name (model_names self) ;;
  Ok {| PredictionResponse.prediction := prediction;
        PredictionResponse.probability := probability;
        PredictionResponse.confidence := confidence;
        PredictionResponse.model_used := name;
        PredictionResponse.recommendation := recommendation |}.

Definition predict (self : t) (features : list float) (model_name : option string)
  : response PredictionResponse.t :=
  match select_model self model_name with
  | None => HTTPException 503 "Nenhum modelo disponível"
  | Some model_name =>
      match predict_body self features model_name with
      | Ok r => Return r
      | Raise e => HTTPException 500 ("Erro: " ++ e)
      end
  end.
End Dispatcher.

End ModelManager.

(** numpy on a list of floats: one row, whatever the length. *)
Definition np_row (features : list float) : result matrix := Ok [features].

(** ** The [/predict] endpoint *)

(** What a POST ends in: the body is refused while the request model is
    built (the framework's validation error), or the handler runs. *)
Inductive reply :=
| RequestValidationError (msg : string)
| Handled (r : response PredictionResponse.t).

Section Endpoint.
Variable np_array_reshape : list float -> result matrix.
Variable model_manager : ModelManager.t.

(** The handler [predict(request)]. *)
Definition predict (request : PredictionRequest.t) : response PredictionResponse.t :=
  ModelManager.predict np_array_reshape model_manager
    (PredictionRequest.features request) (PredictionRequest.model_name request).

Definition post_predict (b : PredictionRequest.body) : reply :=
  match PredictionRequest.make b with
  | Raise e => RequestValidationError e
  | Ok request => Handled (predict request)
  end.
End Endpoint.

(** ** The [/health] and [/models] endpoints *)

Module HealthResponse.
Record t := {
  message : string;
  models_loaded : nat;
  available_models : list string
}.
End HealthResponse.

Module ModelEntry.
Record t := {
  key : string;
  name : string
}.
End ModelEntry.

Section Listing.
Variable model_manager : ModelManager.t.

(** The handler [health()]. *)
Definition health : HealthResponse.t :=
  {| HealthResponse.message := "API funcionando";
     HealthResponse.models_loaded := List.length (ModelManager.models model_manager);
     HealthResponse.available_models := dict_keys (ModelManager.models model_manager) |}.

(** The comprehension of [list_models()] over [keys]: the entries are built
    in order, and [model_names[key]] raises at the first key without a
    display name. *)
Fixpoint models_entries (keys : list string) : result (list ModelEntry.t) :=
  match keys with
  | [] => Ok []
  | key :: rest =>
      name <- dict_getitem key (ModelManager.model_names model_manager) ;;
      entries <- models_entries rest ;;
      Ok ({| ModelEntry.key := key; ModelEntry.name := name |} :: entries)
  end.

(** The handler [list_models()]: the list under ["models"]; nothing in the
    handler catches the [KeyError]. *)
Definition list_models : result (list ModelEntry.t) :=
  models_entries (dict_keys (ModelManager.models model_manager)).
End Listing.

(** ** A run of the [try] body, statement by statement

    [Prepared] is the feature preparation, [Succeeds] a run that reaches the
    [return], and [Raises] a run that leaves the body with an exception, one
    constructor per statement that can raise. *)

Section Runs.
Variable np_array_reshape : list float -> result matrix.
Variable self : ModelManager.t.
Variable features : list float.
Variable model_name : string.

(** The matrix fed to the model: built, then scaled when a scaler is
    loaded and truthy. *)
Definition Prepared (X : matrix) : Prop :=
  exists X0, np_array_reshape features = Ok X0 /\
    match ModelManager.scaler self with
    | Some s => if Scaler.truthy s then Scaler.transform s X0 = Ok X else X = X0
    | None => X = X0
    end.

(** The probability step answers [probability] on [X]. *)
Definition Estimated (model : Model.t) (X : matrix) (probability : option float) : Prop :=
  match Model.predict_proba model with
  | Some predict_proba =>
      exists probs rows p, predict_proba X = Ok (probs :: rows) /\
        py_max probs = Ok p /\ probability = Some p
  | None => probability = None
  end.

Inductive Succeeds (prediction : float) (probability : option float) (name : string) : Prop :=
| succeeds (X : matrix) (model : Model.t) (ys : list float)
    (HX : Prepared X)
    (Hmodel : dict_get model_name (ModelManager.models self) = Some model)
    (Hpredict : Model.predict model X = Ok (prediction :: ys))
    (Hproba : Estimated model X probability)
    (Hname : dict_get model_name (ModelManager.model_names self) = Some name).

Inductive Raises : string -> Prop :=
| raises_construction e
    (Hnp : np_array_reshape features = Raise e) : Raises e
| raises_scaling X0 s e
    (Hnp : np_array_reshape features = Ok X0)
    (Hscaler : ModelManager.scaler self = Some s)
    (Htruthy : Scaler.truthy s = true)
    (Htransform : Scaler.transform s X0 = Raise e) : Raises e
| raises_lookup X
    (HX : Prepared X)
    (Hmodel : dict_get model_name (ModelManager.models self) = None) :
    Raises ("'" ++ model_name ++ "'")
| raises_predict X model e
    (HX : Prepared X)
    (Hmodel : dict_get model_name (ModelManager.models self) = Some model)
    (Hpredict : Model.predict model X = Raise e) : Raises e
| raises_predict_empty X model
    (HX : Prepared X)
    (Hmodel : dict_get model_name (ModelManager.models self) = Some model)
    (Hpredict : Model.predict model X = Ok []) :
    Raises "index 0 is out of bounds for axis 0 with size 0"
| raises_proba X model y ys predict_proba e
    (HX : Prepared X)
    (Hmodel : dict_get model_name (ModelManager.models self) = Some model)
    (Hpredict : Model.predict model X = Ok (y :: ys))
    (Hattr : Model.predict_proba model = Some predict_proba)
    (Hproba : predict_proba X = Raise e) : Raises e
| raises_proba_empty X model y ys predict_proba
    (HX : Prepared X)
    (Hmodel : dict_get model_name (ModelManager.models self) = Some model)
    (Hpredict : Model.predict model X = Ok (y :: ys))
    (Hattr : Model.predict_proba model = Some predict_proba)
    (Hproba : predict_proba X = Ok []) :
    Raises "index 0 is out of bounds for axis 0 with size 0"
| raises_max X model y ys predict_proba rows
    (HX : Prepared X)
    (Hmodel : dict_get model_name (ModelManager.models self) = Some model)
    (Hpredict : Model.predict model X = Ok (y :: ys))
    (Hattr : Model.predict_proba model = Some predict_proba)
    (Hproba : predict_proba X = Ok ([] :: rows)) :
    Raises "max() arg is an empty sequence"
| raises_name prediction probability X model ys
    (HX : Prepared X)
    (Hmodel : dict_get model_name (ModelManager.models self) = Some model)
    (Hpredict : Model.predict model X = Ok (prediction :: ys))
    (Hproba : Estimated model X probability)
    (Hname : dict_get model_name (ModelManager.model_names self) = None) :
    Raises ("'" ++ model_name ++ "'").
End Runs.

(** The record the [return] builds from a prediction and a probability. *)
Definition result_of (prediction : float) (probability : option float) (name : string)
  : PredictionResponse.t :=
  {| PredictionResponse.prediction := prediction;
     PredictionResponse.probability := probability;
     PredictionResponse.confidence :=
       ModelManager.confidence_label (ModelManager.score_of probability prediction);
     PredictionResponse.model_used := name;
     PredictionResponse.recommendation := ModelManager.recommendation_text prediction |}.

(** The requested identifier is not a key of the loaded models ([None] never
    is). *)
Definition requested_absent (self : ModelManager.t) (model_name : option string) : Prop :=
  match model_name with
  | Some k => dict_in k (ModelManager.models self) = false
  | None => True
  end.

(** ** Sample objects

    The stub models of the specification's end-to-end example: fixed
    answers, whatever the matrix. *)

Definition stub_model (prediction : float) (probs : list float) : Model.t :=
  {| Model.predict := fun _ => Ok [prediction];
     Model.predict_proba := Some (fun _ => Ok [probs]) |}.

Definition plain_model (prediction : float) : Model.t :=
  {| Model.predict := fun _ => Ok [prediction];
     Model.predict_proba := None |}.

Definition failing_model (e : string) : Model.t :=
  {| Model.predict := fun _ => Raise e;
     Model.predict_proba := None |}.

(** A model fitted on six features: it refuses a row of another length the
    way scikit-learn's input check does. *)
Definition strict_model (prediction : float) : Model.t :=
  {| Model.predict := fun X =>
       match X with
       | [row] =>
           if (List.length row =? 6)%nat then Ok [prediction]
           else Raise ("X has " ++ str_of_nat (List.length row)
                       ++ " features, but LogisticRegression is expecting 6 features as input.")
       | _ => Raise "Expected a single row"
       end;
     Model.predict_proba := None |}.

(** The [model_names] every manager is built with. *)
Definition known_names : dict string :=
  [("logistic_regression", "Regressão Logística");
   ("random_forest", "Random Forest");
   ("gradient_boosting", "Gradient Boosting")].

Definition manager_of (models : dict Model.t) : ModelManager.t :=
  {| ModelManager.models := models;
     ModelManager.scaler := None;
     ModelManager.model_names := known_names |}.

Definition sample_features : list float := [0.5; 1.2; -0.3; 2.0; 0.0; 1.0]%float.

(** A directory that holds a corrupt scaler, a good logistic regression, a
    corrupt random forest and no gradient boosting. *)
Definition sample_fs : FileSystem :=
  {| path_exists := fun p => negb (String.eqb p "gradient_boosting.joblib");
     load_scaler := fun _ => Raise "invalid load key";
     load_model := fun p =>
       if String.eqb p "logistic_regression.joblib"
       then Ok (stub_model 0.75 [0.2; 0.8]%float)
       else Raise "unexpected end of file" |}.

(** A scaler that halves every entry, and a model that answers the first
    entry of the row it is given. *)
Definition halving_scaler : Scaler.t :=
  {| Scaler.truthy := true;
     Scaler.transform := fun X => Ok (map (map (fun x => x / 2)%float) X) |}.

(** A loaded object that is falsy (an empty pipeline, say) and whose
    [transform] would raise. *)
Definition falsy_scaler : Scaler.t :=
  {| Scaler.truthy := false;
     Scaler.transform := fun _ => Raise "This Pipeline instance is not fitted yet" |}.

Definition echo_model : Model.t :=
  {| Model.predict := fun X =>
       match X with
       | (x :: _) :: _ => Ok [x]
       | _ => Raise "Found array with 0 feature(s)"
       end;
     Model.predict_proba := None |}.

(** A directory without any artifact, and one that holds a good scaler and
    the three models. *)
Definition empty_fs : FileSystem :=
  {| path_exists := fun _ => false;
     load_scaler := fun _ => Raise "No such file or directory";
     load_model := fun _ => Raise "No such file or directory" |}.

Definition full_fs : FileSystem :=
  {| path_exists := fun _ => true;
     load_scaler := fun _ => Ok halving_scaler;
     load_model := fun p =>
       if String.eqb p "logistic_regression.joblib"
       then Ok (stub_model 0.75 [0.2; 0.8]%float)
       else if String.eqb p "random_forest.joblib" then Ok (plain_model 0.5)
       else Ok echo_model |}.

(** The artifact of [model_key] is there and [joblib.load] answers an
    object for it. *)
Definition deserializes (fs : FileSystem) (model_key : string) : bool :=
  path_exists fs (model_key ++ ".joblib") && is_ok (load_model fs (model_key ++ ".joblib")).

(** * Properties *)

(** ** Floats *)

Lemma SFcompare_swap (x y : spec_float) :
  SFcompare y x = option_map CompOpp (SFcompare x y).
Proof.
  destruct x as [sx|sx| |sx mx ex], y as [sy|sy| |sy my ey]; simpl;
    try reflexivity;
    try (destruct sx; reflexivity);
    try (destruct sy; reflexivity);
    try (destruct sx, sy; reflexivity).
  destruct sx, sy; try reflexivity;
    rewrite (Z.compare_antisym ex ey);
    destruct (ex ?= ey)%Z; simpl; try reflexivity;
    rewrite !Pos.compare_cont_spec; simpl;
    rewrite (Pos.compare_antisym mx my);
    destruct (mx ?= my)%positive; reflexivity.
Qed.

(** On floats, [x < y] excludes [x >= y]. *)
Lemma float_lt_not_ge (x y : float) :
  (x <? y)%float = true -> float_ge x y = false.
Proof.
  unfold float_ge. rewrite ltb_spec, leb_spec.
  unfold SFltb, SFleb. rewrite (SFcompare_swap (Prim2SF x) (Prim2SF y)).
  destruct (SFcompare (Prim2SF x) (Prim2SF y)) as [[| |]|]; simpl; congruence.
Qed.

(** When [x] compares with something ([x] is not NaN) and [y] is a number,
    [x < y] or [x >= y]. *)
Lemma float_ge_or_lt (a x y : float) :
  float_ge x a = true -> (y =? y)%float = true ->
  (x <? y)%float = false -> float_ge x y = true.
Proof.
  unfold float_ge. rewrite ltb_spec, eqb_spec, !leb_spec.
  unfold SFltb, SFleb, SFeqb. rewrite (SFcompare_swap (Prim2SF x) (Prim2SF y)).
  destruct (Prim2SF x) as [sx|sx| |sx mx ex], (Prim2SF y) as [sy|sy| |sy my ey],
    (Prim2SF a) as [sa|sa| |sa ma ea];
    try discriminate;
    match goal with
    | |- context [SFcompare ?u ?v] =>
        let c := fresh "c" in
        intros _ _; destruct (SFcompare u v) as [[| |]|] eqn:c;
        simpl; try congruence; simpl in c; discriminate c
    end.
Qed.

(** ** Dictionaries *)

Lemma dict_in_keys {V : Type} (k : string) (d : dict V) :
  dict_in k d = true <-> In k (dict_keys d).
Proof.
  unfold dict_in. induction d as [|[k' v] d IH]; simpl.
  - split; [discriminate | tauto].
  - destruct (String.eqb_spec k k') as [->|Hne].
    + split; auto.
    + rewrite IH. split; [auto | intros [Heq|Hin]; [congruence | exact Hin]].
Qed.

Lemma dict_set_keys_new {V : Type} (k : string) (v : V) (d : dict V) :
  dict_in k d = false -> dict_keys (dict_set k v d) = (dict_keys d ++ [k])%list.
Proof.
  unfold dict_in. induction d as [|[k' v'] d IH]; simpl; intros Hk.
  - reflexivity.
  - destruct (String.eqb k k'); [discriminate Hk|].
    simpl. now rewrite IH.
Qed.

Lemma dict_set_keys_old {V : Type} (k : string) (v : V) (d : dict V) :
  dict_in k d = true -> dict_keys (dict_set k v d) = dict_keys d.
Proof.
  unfold dict_in. induction d as [|[k' v'] d IH]; simpl; intros Hk.
  - discriminate Hk.
  - destruct (String.eqb k k'); simpl; [reflexivity|].
    now rewrite IH.
Qed.

Lemma dict_keys_length {V : Type} (d : dict V) :
  List.length (dict_keys d) = List.length d.
Proof. apply length_map. Qed.

(** ** The body of the [try] against its runs *)

Section BodyRuns.
Variable np_array_reshape : list float -> result matrix.
Variable self : ModelManager.t.
Variable features : list float.
Variable model_name : string.

Lemma probability_of_estimated (model : Model.t) (X : matrix) (probability : option float) :
  ModelManager.probability_of model X = Ok probability <-> Estimated model X probability.
Proof.
  unfold ModelManager.probability_of, Estimated.
  destruct (Model.predict_proba model) as [f|].
  - destruct (f X) as [[|probs rows]|e]; simpl.
    + split; [discriminate | intros (? & ? & ? & H & _); discriminate H].
    + destruct probs as [|x rest]; simpl.
      * split; [discriminate | intros (? & ? & ? & H & Hm & _)].
        injection H as <- <-. discriminate Hm.
      * split.
        -- intros H. injection H as <-. now exists (x :: rest), rows, (fold_left (fun cur item => if (cur <? item)%float then item else cur) rest x).
        -- intros (probs & rows' & p & H & Hm & ->).
           injection H as <- <-. simpl in Hm. now injection Hm as ->.
    + split; [discriminate | intros (? & ? & ? & H & _); discriminate H].
  - split; [intros H; now injection H | intros ->; reflexivity].
Qed.

Lemma predict_body_succeeds (prediction : float) (probability : option float) (name : string) :
  Succeeds np_array_reshape self features model_name prediction probability name ->
  ModelManager.predict_body np_array_reshape self features model_name
  = Ok (result_of prediction probability name).
Proof.
  intros [X model ys (X0 & Hnp & Hs) Hmodel Hpredict Hproba Hname].
  apply probability_of_estimated in Hproba.
  unfold ModelManager.predict_body, dict_getitem.
  rewrite Hnp; simpl.
  destruct (ModelManager.scaler self) as [s|];
    [destruct (Scaler.truthy s); [rewrite Hs | subst X0] | subst X0]; simpl;
    rewrite Hmodel; simpl; rewrite Hpredict; simpl; rewrite Hproba; simpl;
    rewrite Hname; reflexivity.
Qed.

Lemma predict_body_raises (e : string) :
  Raises np_array_reshape self features model_name e ->
  ModelManager.predict_body np_array_reshape self features model_name = Raise e.
Proof.
  unfold ModelManager.predict_body, dict_getitem.
  assert (Hprep : forall X (k : matrix -> result PredictionResponse.t),
    Prepared np_array_reshape self features X ->
    (X0 <- np_array_reshape features ;;
     X1 <- match ModelManager.scaler self with
           | Some s => if Scaler.truthy s then Scaler.transform s X0 else Ok X0
           | None => Ok X0
           end ;; k X1) = k X).
  { intros X k (X0 & Hnp & Hs). rewrite Hnp; simpl.
    destruct (ModelManager.scaler self) as [s|];
      [destruct (Scaler.truthy s); [rewrite Hs | subst X0] | subst X0]; reflexivity. }
  intros H; destruct H.
  - now rewrite Hnp.
  - rewrite Hnp; simpl. rewrite Hscaler, Htruthy. now rewrite Htransform.
  - rewrite (Hprep X _ HX). now rewrite Hmodel.
  - rewrite (Hprep X _ HX). rewrite Hmodel; simpl. now rewrite Hpredict.
  - rewrite (Hprep X _ HX). rewrite Hmodel; simpl. now rewrite Hpredict.
  - rewrite (Hprep X _ HX). rewrite Hmodel; simpl. rewrite Hpredict; simpl.
    unfold ModelManager.probability_of. rewrite Hattr. now rewrite Hproba.
  - rewrite (Hprep X _ HX). rewrite Hmodel; simpl. rewrite Hpredict; simpl.
    unfold ModelManager.probability_of. rewrite Hattr. now rewrite Hproba.
  - rewrite (Hprep X _ HX). rewrite Hmodel; simpl. rewrite Hpredict; simpl.
    unfold ModelManager.probability_of. rewrite Hattr. now rewrite Hproba.
  - apply probability_of_estimated in Hproba.
    rewrite (Hprep X _ HX). rewrite Hmodel; simpl. rewrite Hpredict; simpl.
    rewrite Hproba; simpl. now rewrite Hname.
Qed.

(** Every run of the body is one of the two kinds. *)
Lemma predict_body_run :
  (exists prediction probability name,
      Succeeds np_array_reshape self features model_name prediction probability name)
  \/ (exists e, Raises np_array_reshape self features model_name e).
Proof.
  destruct (np_array_reshape features) as [X0|e] eqn:Hnp;
    [| right; exists e; now apply raises_construction].
  assert (Hscale : (exists X, Prepared np_array_reshape self features X)
                   \/ exists e, Raises np_array_reshape self features model_name e).
  { destruct (ModelManager.scaler self) as [s|] eqn:Hs.
    - destruct (Scaler.truthy s) eqn:Hb.
      + destruct (Scaler.transform s X0) as [X|e] eqn:Ht.
        * left. exists X, X0. rewrite Hs, Hb. auto.
        * right. exists e. eapply raises_scaling; eauto.
      + left. exists X0, X0. rewrite Hs, Hb. auto.
    - left. exists X0, X0. rewrite Hs. auto. }
  destruct Hscale as [[X HX]|Hr]; [|now right].
  destruct (dict_get model_name (ModelManager.models self)) as [model|] eqn:Hmodel;
    [| right; eexists; eapply raises_lookup; eauto].
  destruct (Model.predict model X) as [[|y ys]|e] eqn:Hpredict;
    [ right; eexists; eapply raises_predict_empty; eauto
    | | right; eexists; eapply raises_predict; eauto ].
  assert (Hprob : (exists probability, Estimated model X probability)
                  \/ exists e, Raises np_array_reshape self features model_name e).
  { unfold Estimated.
    destruct (Model.predict_proba model) as [f|] eqn:Hattr; [| left; now exists None].
    destruct (f X) as [[|[|p probs] rows]|e] eqn:Hproba.
    - right; eexists; eapply raises_proba_empty; eauto.
    - right; eexists; eapply raises_max; eauto.
    - left. eexists. exists (p :: probs), rows. eexists. split; [reflexivity|].
      split; reflexivity.
    - right; eexists; eapply raises_proba; eauto. }
  destruct Hprob as [[probability Hprob]|Hr]; [|now right].
  destruct (dict_get model_name (ModelManager.model_names self)) as [name|] eqn:Hname.
  - left. exists y, probability, name. econstructor; eauto.
  - right. eexists. eapply raises_name; eauto.
Qed.

Lemma predict_body_ok_inv (r : PredictionResponse.t) :
  ModelManager.predict_body np_array_reshape self features model_name = Ok r ->
  exists prediction probability name,
    Succeeds np_array_reshape self features model_name prediction probability name
    /\ r = result_of prediction probability name.
Proof.
  intros Hr.
  destruct predict_body_run as [(prediction & probability & name & Hs)|[e He]].
  - exists prediction, probability, name. split; [exact Hs|].
    apply predict_body_succeeds in Hs. congruence.
  - apply predict_body_raises in He. congruence.
Qed.

Lemma predict_body_raise_inv (e : string) :
  ModelManager.predict_body np_array_reshape self features model_name = Raise e ->
  Raises np_array_reshape self features model_name e.
Proof.
  intros Hr.
  destruct predict_body_run as [(prediction & probability & name & Hs)|[e' He]].
  - apply predict_body_succeeds in Hs. congruence.
  - pose proof (predict_body_raises _ He) as He'.
    assert (e' = e) by congruence. now subst e'.
Qed.
End BodyRuns.

(** ** Model selection *)

Lemma select_model_present (self : ModelManager.t) (k : string) :
  dict_in k (ModelManager.models self) = true ->
  ModelManager.select_model self (Some k) = Some k.
Proof. unfold ModelManager.select_model. now intros ->. Qed.

Lemma select_model_absent (self : ModelManager.t) (model_name : option string)
    (first : string) (others : list string) :
  requested_absent self model_name ->
  dict_keys (ModelManager.models self) = first :: others ->
  ModelManager.select_model self model_name = Some first.
Proof.
  unfold ModelManager.select_model, requested_absent.
  intros Habs ->. destruct model_name as [k|]; [rewrite Habs|]; reflexivity.
Qed.

Lemma select_model_empty (self : ModelManager.t) (model_name : option string) :
  ModelManager.models self = [] ->
  ModelManager.select_model self model_name = None.
Proof.
  unfold ModelManager.select_model. intros ->.
  destruct model_name; reflexivity.
Qed.

(** The key the call goes on with is a key of the loaded models. *)
Lemma select_model_loaded (self : ModelManager.t) (model_name : option string) (key : string) :
  ModelManager.select_model self model_name = Some key ->
  dict_in key (ModelManager.models self) = true.
Proof.
  unfold ModelManager.select_model.
  destruct model_name as [k|]; simpl.
  - destruct (dict_in k (ModelManager.models self)) eqn:Hk; simpl.
    + intros H; injection H as <-. exact Hk.
    + destruct (ModelManager.models self) as [|[k0 m] d]; simpl; [discriminate|].
      intros H; injection H as <-. unfold dict_in; simpl. now rewrite String.eqb_refl.
  - destruct (ModelManager.models self) as [|[k0 m] d]; simpl; [discriminate|].
    intros H; injection H as <-. unfold dict_in; simpl. now rewrite String.eqb_refl.
Qed.

Lemma select_model_nonempty (self : ModelManager.t) (model_name : option string) :
  ModelManager.models self <> [] ->
  exists key, ModelManager.select_model self model_name = Some key.
Proof.
  intros Hne. unfold ModelManager.select_model.
  assert (Hfirst : exists key,
    match dict_keys (ModelManager.models self) with
    | [] => None
    | first :: _ => Some first
    end = Some key).
  { destruct (ModelManager.models self) as [|[k0 m] d]; [contradiction|].
    simpl. now exists k0. }
  destruct model_name as [k|]; simpl; [|exact Hfirst].
  destruct (dict_in k (ModelManager.models self)); simpl; [now exists k | exact Hfirst].
Qed.

(** ** [predict] against the runs of its body *)

Section PredictRuns.
Variable np_array_reshape : list float -> result matrix.
Variable self : ModelManager.t.
Variable features : list float.

Lemma predict_succeeds (model_name : option string) (key : string)
    (prediction : float) (probability : option float) (name : string) :
  ModelManager.select_model self model_name = Some key ->
  Succeeds np_array_reshape self features key prediction probability name ->
  ModelManager.predict np_array_reshape self features model_name
  = Return (result_of prediction probability name).
Proof.
  intros Hsel Hrun. unfold ModelManager.predict. rewrite Hsel.
  now rewrite (predict_body_succeeds _ _ _ _ _ _ _ Hrun).
Qed.

Lemma predict_raises (model_name : option string) (key : string) (e : string) :
  ModelManager.select_model self model_name = Some key ->
  Raises np_array_reshape self features key e ->
  ModelManager.predict np_array_reshape self features model_name
  = HTTPException 500 ("Erro: " ++ e).
Proof.
  intros Hsel Hrun. unfold ModelManager.predict. rewrite Hsel.
  now rewrite (predict_body_raises _ _ _ _ _ Hrun).
Qed.

Lemma predict_return_inv (model_name : option string) (r : PredictionResponse.t) :
  ModelManager.predict np_array_reshape self features model_name = Return r ->
  exists key prediction probability name,
    ModelManager.select_model self model_name = Some key
    /\ Succeeds np_array_reshape self features key prediction probability name
    /\ r = result_of prediction probability name.
Proof.
  unfold ModelManager.predict.
  destruct (ModelManager.select_model self model_name) as [key|]; [|discriminate].
  destruct (ModelManager.predict_body np_array_reshape self features key) as [r'|e] eqn:Hb;
    [|discriminate].
  intros H; injection H as ->.
  apply predict_body_ok_inv in Hb as (prediction & probability & name & Hrun & ->).
  now exists key, prediction, probability, name.
Qed.
End PredictRuns.

(** ** The score *)

Lemma score_of_absent (prediction : float) :
  ModelManager.score_of None prediction = prediction.
Proof. reflexivity. Qed.

Lemma score_of_nonzero (p prediction : float) :
  (p =? 0)%float = false -> ModelManager.score_of (Some p) prediction = p.
Proof. unfold ModelManager.score_of, float_truthy. now intros ->. Qed.

Lemma score_of_zero (p prediction : float) :
  (p =? 0)%float = true -> ModelManager.score_of (Some p) prediction = prediction.
Proof. unfold ModelManager.score_of, float_truthy. now intros ->. Qed.

(** C1, at a model whose [predict] answers [[1.0]] and whose [predict_proba]
    answers [[[0.0, 0.0]]]: the call succeeds and the probability [0.0] was
    computed (it is the [probability] of the result), yet the score that is
    labeled is the prediction [1.0], so the confidence is "Alto", where the
    label of the probability is "Baixo". *)
Theorem predict_zero_probability_scored_by_prediction :
  ModelManager.predict np_row
    (manager_of [("logistic_regression", stub_model 1 [0; 0]%float)])
    sample_features (Some "logistic_regression")
  = Return {| PredictionResponse.prediction := 1;
              PredictionResponse.probability := Some 0%float;
              PredictionResponse.confidence := "Alto";
              PredictionResponse.model_used := "Regressão Logística";
              PredictionResponse.recommendation := "Aprovação recomendada" |}
  /\ ModelManager.score_of (Some 0%float) 1 = 1%float
  /\ ModelManager.confidence_label 0 = "Baixo".
Proof. repeat split; vm_compute; reflexivity. Qed.

(** ** Sample runs *)

Lemma stub_model_succeeds (key name : string) (prediction p : float) (probs : list float)
    (features : list float) (others : dict Model.t) :
  py_max probs = Ok p ->
  dict_get key known_names = Some name ->
  Succeeds np_row (manager_of ((key, stub_model prediction probs) :: others))
    features key prediction (Some p) name.
Proof.
  intros Hmax Hname.
  apply (succeeds _ _ _ _ _ _ _ [features] (stub_model prediction probs) []).
  - exists [features]. split; reflexivity.
  - simpl. now rewrite String.eqb_refl.
  - reflexivity.
  - exists probs, [], p. repeat split. exact Hmax.
  - exact Hname.
Qed.

Lemma plain_model_succeeds (key name : string) (prediction : float)
    (features : list float) (others : dict Model.t) :
  dict_get key known_names = Some name ->
  Succeeds np_row (manager_of ((key, plain_model prediction) :: others))
    features key prediction None name.
Proof.
  intros Hname.
  apply (succeeds _ _ _ _ _ _ _ [features] (plain_model prediction) []).
  - exists [features]. split; reflexivity.
  - simpl. now rewrite String.eqb_refl.
  - reflexivity.
  - reflexivity.
  - exact Hname.
Qed.

(** ** The labels of a result *)

(** C2, as stated, fails at the specification's end-to-end example (six
    features, the loaded model "logistic_regression" answering the
    prediction 0.75 and the probabilities [0.2, 0.8]): the call returns a
    result, whose confidence is none of "High", "Medium", "Low" and whose
    recommendation is none of "Approval recommended", "Review carefully",
    "Not recommended". *)
Lemma predict_labels_not_english :
  exists r,
    ModelManager.predict np_row
      (manager_of [("logistic_regression", stub_model 0.75 [0.2; 0.8]%float)])
      sample_features (Some "logistic_regression") = Return r
    /\ ~ In (PredictionResponse.confidence r) ["High"; "Medium"; "Low"]
    /\ ~ In (PredictionResponse.recommendation r)
         ["Approval recommended"; "Review carefully"; "Not recommended"].
Proof.
  eexists. split; [vm_compute; reflexivity|].
  split; simpl; intros H; repeat destruct H as [H|H]; try discriminate H; exact H.
Qed.

(** C2, amended: for a 6-element feature vector and a loaded model
    identifier, when the scaler and the model answer, [predict] returns a
    result whose confidence is exactly one of "Alto", "Médio", "Baixo" and
    whose recommendation is exactly one of "Aprovação recomendada",
    "Analisar com cuidado", "Não recomendado". *)
Theorem predict_labels (np_array_reshape : list float -> result matrix)
    (self : ModelManager.t) (features : list float) (model_name : string)
    (prediction : float) (probability : option float) (name : string) :
  List.length features = 6 ->
  dict_in model_name (ModelManager.models self) = true ->
  Succeeds np_array_reshape self features model_name prediction probability name ->
  exists r,
    ModelManager.predict np_array_reshape self features (Some model_name) = Return r
    /\ In (PredictionResponse.confidence r) ["Alto"; "Médio"; "Baixo"]
    /\ In (PredictionResponse.recommendation r)
         ["Aprovação recomendada"; "Analisar com cuidado"; "Não recomendado"].
Proof.
  intros _ Hin Hrun.
  exists (result_of prediction probability name). split.
  - apply (predict_succeeds _ _ _ _ model_name); [now apply select_model_present | exact Hrun].
  - unfold result_of, ModelManager.confidence_label, ModelManager.recommendation_text; simpl.
    split.
    + destruct (float_ge _ 0.8); [|destruct (float_ge _ 0.6)]; simpl; auto.
    + destruct (float_ge _ 0.7); [|destruct (float_ge _ 0.4)]; simpl; auto.
Qed.

Lemma predict_labels_witness :
  exists r,
    ModelManager.predict np_row
      (manager_of [("logistic_regression", stub_model 0.75 [0.2; 0.8]%float)])
      sample_features (Some "logistic_regression") = Return r
    /\ In (PredictionResponse.confidence r) ["Alto"; "Médio"; "Baixo"]
    /\ In (PredictionResponse.recommendation r)
         ["Aprovação recomendada"; "Analisar com cuidado"; "Não recomendado"].
Proof.
  apply (predict_labels np_row _ sample_features "logistic_regression"
           0.75 (Some 0.8%float) "Regressão Logística").
  - reflexivity.
  - reflexivity.
  - apply stub_model_succeeds; reflexivity.
Defined.

Lemma confidence_label_bands (score : float) :
  (float_ge score 0.8 = true -> ModelManager.confidence_label score = "Alto")
  /\ (float_ge score 0.6 = true -> (score <? 0.8)%float = true ->
      ModelManager.confidence_label score = "Médio")
  /\ (float_ge score 0.8 = false ->
      float_ge score 0.6 && (score <? 0.8)%float = false ->
      ModelManager.confidence_label score = "Baixo").
Proof.
  unfold ModelManager.confidence_label. repeat split.
  - now intros ->.
  - intros H6 H8. apply float_lt_not_ge in H8. now rewrite H8, H6.
  - intros H8 Hmid. rewrite H8.
    destruct (float_ge score 0.6) eqn:H6; [|reflexivity].
    simpl in Hmid.
    rewrite (float_ge_or_lt 0.6 score 0.8 H6 eq_refl Hmid) in H8. discriminate H8.
Qed.

Lemma recommendation_text_bands (prediction : float) :
  (float_ge prediction 0.7 = true ->
   ModelManager.recommendation_text prediction = "Aprovação recomendada")
  /\ (float_ge prediction 0.4 = true -> (prediction <? 0.7)%float = true ->
      ModelManager.recommendation_text prediction = "Analisar com cuidado")
  /\ (float_ge prediction 0.7 = false ->
      float_ge prediction 0.4 && (prediction <? 0.7)%float = false ->
      ModelManager.recommendation_text prediction = "Não recomendado").
Proof.
  unfold ModelManager.recommendation_text. repeat split.
  - now intros ->.
  - intros H4 H7. apply float_lt_not_ge in H7. now rewrite H7, H4.
  - intros H7 Hmid. rewrite H7.
    destruct (float_ge prediction 0.4) eqn:H4; [|reflexivity].
    simpl in Hmid.
    rewrite (float_ge_or_lt 0.4 prediction 0.7 H4 eq_refl Hmid) in H7. discriminate H7.
Qed.

(** C3: in every result [predict] returns, the confidence is read off the
    score (the one [predict] computes from the result's probability and
    prediction) by the literal thresholds: "Alto" if [score >= 0.8], "Médio"
    if [0.6 <= score < 0.8], "Baixo" otherwise; a score of exactly 0.8 is
    "Alto" and one of exactly 0.6 is "Médio". *)
Theorem confidence_thresholds (np_array_reshape : list float -> result matrix)
    (self : ModelManager.t) (features : list float) (model_name : option string)
    (r : PredictionResponse.t) :
  ModelManager.predict np_array_reshape self features model_name = Return r ->
  let score :=
    ModelManager.score_of (PredictionResponse.probability r) (PredictionResponse.prediction r) in
  (float_ge score 0.8 = true -> PredictionResponse.confidence r = "Alto")
  /\ (float_ge score 0.6 = true -> (score <? 0.8)%float = true ->
      PredictionResponse.confidence r = "Médio")
  /\ (float_ge score 0.8 = false ->
      float_ge score 0.6 && (score <? 0.8)%float = false ->
      PredictionResponse.confidence r = "Baixo")
  /\ ModelManager.confidence_label 0.8 = "Alto"
  /\ ModelManager.confidence_label 0.6 = "Médio".
Proof.
  intros Hr score.
  apply predict_return_inv in Hr as (key & prediction & probability & name & _ & _ & ->).
  simpl in *. subst score.
  destruct (confidence_label_bands (ModelManager.score_of probability prediction))
    as (Hhigh & Hmid & Hlow).
  repeat split; auto.
Qed.

Lemma confidence_thresholds_witness :
  let r := result_of 0.75 (Some 0.8%float) "Regressão Logística" in
  let score :=
    ModelManager.score_of (PredictionResponse.probability r) (PredictionResponse.prediction r) in
  (float_ge score 0.8 = true -> PredictionResponse.confidence r = "Alto")
  /\ (float_ge score 0.6 = true -> (score <? 0.8)%float = true ->
      PredictionResponse.confidence r = "Médio")
  /\ (float_ge score 0.8 = false ->
      float_ge score 0.6 && (score <? 0.8)%float = false ->
      PredictionResponse.confidence r = "Baixo")
  /\ ModelManager.confidence_label 0.8 = "Alto"
  /\ ModelManager.confidence_label 0.6 = "Médio".
Proof.
  apply (confidence_thresholds np_row
           (manager_of [("logistic_regression", stub_model 0.75 [0.2; 0.8]%float)])
           sample_features (Some "logistic_regression")).
  vm_compute. reflexivity.
Defined.

(** C4: in every result [predict] returns, with or without a probability,
    the prediction is the first value the selected model's [predict] answers
    on the prepared matrix, and the recommendation is read off that value:
    "Aprovação recomendada" if [prediction >= 0.7], "Analisar com cuidado"
    if [0.4 <= prediction < 0.7], "Não recomendado" otherwise. *)
Theorem recommendation_thresholds (np_array_reshape : list float -> result matrix)
    (self : ModelManager.t) (features : list float) (model_name : option string)
    (r : PredictionResponse.t) :
  ModelManager.predict np_array_reshape self features model_name = Return r ->
  let prediction := PredictionResponse.prediction r in
  (exists key model X ys,
      ModelManager.select_model self model_name = Some key
      /\ dict_get key (ModelManager.models self) = Some model
      /\ Prepared np_array_reshape self features X
      /\ Model.predict model X = Ok (prediction :: ys))
  /\ (float_ge prediction 0.7 = true ->
      PredictionResponse.recommendation r = "Aprovação recomendada")
  /\ (float_ge prediction 0.4 = true -> (prediction <? 0.7)%float = true ->
      PredictionResponse.recommendation r = "Analisar com cuidado")
  /\ (float_ge prediction 0.7 = false ->
      float_ge prediction 0.4 && (prediction <? 0.7)%float = false ->
      PredictionResponse.recommendation r = "Não recomendado").
Proof.
  intros Hr prediction.
  apply predict_return_inv in Hr as (key & y & probability & name & Hsel & Hrun & ->).
  simpl in *. subst prediction.
  split.
  - destruct Hrun as [X model ys HX Hmodel Hpredict _ _].
    now exists key, model, X, ys.
  - apply recommendation_text_bands.
Qed.

Lemma recommendation_thresholds_witness :
  let r := result_of 0.5 None "Random Forest" in
  let self := manager_of [("random_forest", plain_model 0.5)] in
  let prediction := PredictionResponse.prediction r in
  (exists key model X ys,
      ModelManager.select_model self (Some "random_forest") = Some key
      /\ dict_get key (ModelManager.models self) = Some model
      /\ Prepared np_row self sample_features X
      /\ Model.predict model X = Ok (prediction :: ys))
  /\ (float_ge prediction 0.7 = true ->
      PredictionResponse.recommendation r = "Aprovação recomendada")
  /\ (float_ge prediction 0.4 = true -> (prediction <? 0.7)%float = true ->
      PredictionResponse.recommendation r = "Analisar com cuidado")
  /\ (float_ge prediction 0.7 = false ->
      float_ge prediction 0.4 && (prediction <? 0.7)%float = false ->
      PredictionResponse.recommendation r = "Não recomendado").
Proof.
  apply (recommendation_thresholds np_row
           (manager_of [("random_forest", plain_model 0.5)])
           sample_features (Some "random_forest")).
  vm_compute. reflexivity.
Defined.

(** ** Model selection in [predict] *)

(** C5: when the requested identifier is not a key of the loaded models and
    the mapping is not empty, [predict], for every feature vector, runs as
    if the first key of the mapping (in insertion order) had been requested:
    it does not raise the 503, it returns a result as soon as the scaler and
    that first model answer, and the [model_used] of every result it returns
    is the display name of that first key. *)
Theorem predict_falls_back_to_first (np_array_reshape : list float -> result matrix)
    (self : ModelManager.t) (features : list float) (model_name : option string)
    (first : string) (others : list string) :
  requested_absent self model_name ->
  dict_keys (ModelManager.models self) = first :: others ->
  ModelManager.predict np_array_reshape self features model_name
  = ModelManager.predict np_array_reshape self features (Some first)
  /\ (forall detail,
        ModelManager.predict np_array_reshape self features model_name
        <> HTTPException 503 detail)
  /\ (forall prediction probability name,
        Succeeds np_array_reshape self features first prediction probability name ->
        ModelManager.predict np_array_reshape self features model_name
        = Return (result_of prediction probability name))
  /\ (forall r,
        ModelManager.predict np_array_reshape self features model_name = Return r ->
        dict_get first (ModelManager.model_names self)
        = Some (PredictionResponse.model_used r)).
Proof.
  intros Habs Hkeys.
  pose proof (select_model_absent _ _ _ _ Habs Hkeys) as Hsel.
  assert (Hfirst : ModelManager.select_model self (Some first) = Some first).
  { apply select_model_present. apply dict_in_keys. rewrite Hkeys. now left. }
  split; [|split; [|split]].
  - unfold ModelManager.predict. now rewrite Hsel, Hfirst.
  - intros detail. unfold ModelManager.predict. rewrite Hsel.
    destruct (ModelManager.predict_body np_array_reshape self features first);
      discriminate.
  - intros prediction probability name Hrun.
    exact (predict_succeeds _ _ _ _ _ _ _ _ Hsel Hrun).
  - intros r Hr.
    apply predict_return_inv in Hr as (key & y & p & name & Hsel' & Hrun & ->).
    assert (key = first) by congruence. subst key.
    simpl. now destruct Hrun.
Qed.

Lemma predict_falls_back_to_first_witness :
  let self := manager_of [("random_forest", plain_model 0.5);
                          ("gradient_boosting", stub_model 1 [0.1; 0.9]%float)] in
  ModelManager.predict np_row self sample_features (Some "logistic_regression")
  = Return (result_of 0.5 None "Random Forest").
Proof.
  refine (proj1 (proj2 (proj2
    (predict_falls_back_to_first np_row
       (manager_of [("random_forest", plain_model 0.5);
                    ("gradient_boosting", stub_model 1 [0.1; 0.9]%float)])
       sample_features (Some "logistic_regression")
       "random_forest" ["gradient_boosting"] _ _))) 0.5%float None "Random Forest" _).
  - reflexivity.
  - reflexivity.
  - apply plain_model_succeeds. reflexivity.
Defined.

(** C6: with no model loaded, [predict] raises the 503 "Nenhum modelo
    disponível" for every feature vector and every requested identifier; it
    returns no result. *)
Theorem predict_without_models (np_array_reshape : list float -> result matrix)
    (self : ModelManager.t) (features : list float) (model_name : option string) :
  ModelManager.models self = [] ->
  ModelManager.predict np_array_reshape self features model_name
  = HTTPException 503 "Nenhum modelo disponível".
Proof.
  intros Hempty. unfold ModelManager.predict.
  now rewrite (select_model_empty _ _ Hempty).
Qed.

Lemma predict_without_models_witness :
  ModelManager.predict np_row (manager_of []) sample_features (Some "logistic_regression")
  = HTTPException 503 "Nenhum modelo disponível".
Proof.
  apply (predict_without_models np_row (manager_of []) sample_features
           (Some "logistic_regression")).
  reflexivity.
Defined.

(** ** Errors inside the [try] *)

(** C7: whichever statement of the [try] raises (the construction of the
    matrix, the scaler, the model's [predict] or [predict_proba], an index
    or a lookup), [predict] ends in the single 500 whose detail is "Erro: "
    followed by the description of that exception, and returns no result.
    The statement that raises is the last one run ([Raises] asks nothing of
    the statements after it), and none is run a second time: the outcome is
    that of the first failure. *)
Theorem predict_error_resignaled (np_array_reshape : list float -> result matrix)
    (self : ModelManager.t) (features : list float) (model_name : option string)
    (key e : string) :
  ModelManager.select_model self model_name = Some key ->
  Raises np_array_reshape self features key e ->
  ModelManager.predict np_array_reshape self features model_name
  = HTTPException 500 ("Erro: " ++ e)
  /\ forall r, ModelManager.predict np_array_reshape self features model_name <> Return r.
Proof.
  intros Hsel Hrun.
  rewrite (predict_raises _ _ _ _ _ _ Hsel Hrun).
  split; [reflexivity | discriminate].
Qed.

Lemma predict_error_resignaled_witness :
  let self := manager_of [("logistic_regression", failing_model "Input contains NaN.")] in
  ModelManager.predict np_row self sample_features (Some "logistic_regression")
  = HTTPException 500 "Erro: Input contains NaN."
  /\ forall r,
       ModelManager.predict np_row self sample_features (Some "logistic_regression") <> Return r.
Proof.
  apply (predict_error_resignaled np_row
           (manager_of [("logistic_regression", failing_model "Input contains NaN.")])
           sample_features (Some "logistic_regression") "logistic_regression"
           "Input contains NaN.").
  - reflexivity.
  - apply (raises_predict _ _ _ _ [sample_features] (failing_model "Input contains NaN.")).
    + exists [sample_features]. split; reflexivity.
    + reflexivity.
    + reflexivity.
Defined.

(** C10: [predict] looks at no length. For a feature list of any length and
    a non-empty mapping, a loaded model is selected and numpy builds the
    one-row matrix of the features; then either the scaler raises, which
    comes out as the 500, or the selected model's [predict] is asked on the
    prepared matrix and its answer decides the call: what it raises (a
    shape mismatch, say) comes out as the 500 carrying it, an empty answer
    as the 500 of the index error, and a value as the prediction of the
    result, unless a later statement raises into the 500. No outcome is a
    refusal for the arity. *)
Theorem predict_checks_no_arity (self : ModelManager.t) (features : list float)
    (model_name : option string) :
  ModelManager.models self <> [] ->
  exists key model,
    ModelManager.select_model self model_name = Some key
    /\ dict_get key (ModelManager.models self) = Some model
    /\ np_row features = Ok [features]
    /\ ((exists s e,
            ModelManager.scaler self = Some s
            /\ Scaler.truthy s = true
            /\ Scaler.transform s [features] = Raise e
            /\ ModelManager.predict np_row self features model_name
               = HTTPException 500 ("Erro: " ++ e))
        \/ (exists X,
              Prepared np_row self features X
              /\ match Model.predict model X with
                 | Raise e =>
                     ModelManager.predict np_row self features model_name
                     = HTTPException 500 ("Erro: " ++ e)
                 | Ok [] =>
                     ModelManager.predict np_row self features model_name
                     = HTTPException 500
                         "Erro: index 0 is out of bounds for axis 0 with size 0"
                 | Ok (y :: _) =>
                     (exists probability name,
                         Succeeds np_row self features key y probability name
                         /\ ModelManager.predict np_row self features model_name
                            = Return (result_of y probability name))
                     \/ (exists e,
                           Raises np_row self features key e
                           /\ ModelManager.predict np_row self features model_name
                              = HTTPException 500 ("Erro: " ++ e))
                 end)).
Proof.
  intros Hne.
  destruct (select_model_nonempty self model_name Hne) as [key Hsel].
  pose proof (select_model_loaded self model_name key Hsel) as Hloaded.
  unfold dict_in in Hloaded.
  destruct (dict_get key (ModelManager.models self)) as [model|] eqn:Hmodel;
    [|discriminate Hloaded].
  exists key, model. repeat (split; [reflexivity || assumption|]).
  assert (Hscale :
    (exists s e, ModelManager.scaler self = Some s /\ Scaler.truthy s = true
                 /\ Scaler.transform s [features] = Raise e)
    \/ exists X, Prepared np_row self features X).
  { unfold Prepared, np_row.
    destruct (ModelManager.scaler self) as [s|] eqn:Hs.
    - destruct (Scaler.truthy s) eqn:Hb.
      + destruct (Scaler.transform s [features]) as [X|e] eqn:Ht.
        * right. exists X, [features]. auto.
        * left. now exists s, e.
      + right. exists [features], [features]. auto.
    - right. now exists [features], [features]. }
  destruct Hscale as [(s & e & Hs & Hb & Ht)|[X HX]].
  - left. exists s, e. repeat split; auto.
    apply (predict_raises _ _ _ _ key); [exact Hsel|].
    now apply (raises_scaling _ _ _ _ [features] s).
  - right. exists X. split; [exact HX|].
    destruct (Model.predict model X) as [[|y ys]|e] eqn:Hpredict.
    + apply (predict_raises _ _ _ _ key); [exact Hsel|].
      now apply (raises_predict_empty _ _ _ _ X model).
    + destruct (predict_body_run np_row self features key)
        as [(prediction & probability & name & Hrun)|[e Hrun]].
      * left. exists probability, name.
        assert (prediction = y).
        { destruct Hrun as [X' model' ys' HX' Hmodel' Hpredict' _ _].
          assert (X' = X).
          { destruct HX as (X0 & Hnp & HX), HX' as (X0' & Hnp' & HX').
            assert (X0' = X0) by congruence. subst X0'.
            destruct (ModelManager.scaler self) as [s|];
              [destruct (Scaler.truthy s)|]; congruence. }
          subst X'. assert (model' = model) by congruence. subst model'.
          congruence. }
        subst prediction. split; [exact Hrun|].
        now apply (predict_succeeds _ _ _ _ key).
      * right. exists e. split; [exact Hrun|].
        now apply (predict_raises _ _ _ _ key).
    + apply (predict_raises _ _ _ _ key); [exact Hsel|].
      now apply (raises_predict _ _ _ _ X model).
Qed.

Lemma predict_checks_no_arity_witness :
  ModelManager.predict np_row (manager_of [("logistic_regression", strict_model 1)])
    [0.5; 1.2; -0.3]%float (Some "logistic_regression")
  = HTTPException 500
      "Erro: X has 3 features, but LogisticRegression is expecting 6 features as input.".
Proof.
  destruct (predict_checks_no_arity
              (manager_of [("logistic_regression", strict_model 1)])
              [0.5; 1.2; -0.3]%float (Some "logistic_regression"))
    as (key & model & Hsel & Hmodel & _ & [(s & e & Hs & _)|(X & HX & Hasked)]).
  - discriminate.
  - discriminate Hs.
  - injection Hsel as <-. injection Hmodel as <-.
    destruct HX as (X0 & Hnp & HX). injection Hnp as <-.
    simpl in HX. subst X. exact Hasked.
Defined.

(** A three-element vector handed to the dispatcher: a model that ignores
    the shape answers, and one fitted on six features raises, which comes
    out as the 500. *)
Example predict_three_features_answered :
  ModelManager.predict np_row (manager_of [("logistic_regression", plain_model 1)])
    [0.5; 1.2; -0.3]%float (Some "logistic_regression")
  = Return (result_of 1 None "Regressão Logística").
Proof. vm_compute. reflexivity. Qed.

Example predict_three_features_refused_by_model :
  ModelManager.predict np_row (manager_of [("logistic_regression", strict_model 1)])
    [0.5; 1.2; -0.3]%float (Some "logistic_regression")
  = HTTPException 500
      "Erro: X has 3 features, but LogisticRegression is expecting 6 features as input.".
Proof. vm_compute. reflexivity. Qed.

(** ** Loading the artifacts *)

Lemma dict_in_false_keys {V : Type} (k : string) (d : dict V) :
  dict_in k d = false <-> ~ In k (dict_keys d).
Proof.
  rewrite <- dict_in_keys. destruct (dict_in k d); split; congruence.
Qed.

Lemma In_emit (lg : log) (lv : level) (msg : string) (entry : level * string) :
  In entry (emit lg lv msg) <-> In entry lg \/ entry = (lv, msg).
Proof.
  unfold emit. rewrite in_app_iff. simpl. intuition congruence.
Qed.

(** The loop over the model keys, from any state in which none of [keys] is
    loaded yet: the keys that deserialize are appended in order, nothing
    else of the manager changes, the log only grows, and every key whose
    file is there but fails to load has its error line. *)
Lemma load_model_loop (fs : FileSystem) (keys : list string) :
  forall (self : ModelManager.t) (lg : log),
    NoDup keys ->
    (forall k, In k keys -> dict_in k (ModelManager.models self) = false) ->
    forall self' lg',
      fold_left (ModelManager.load_model_step fs) keys (self, lg) = (self', lg') ->
      dict_keys (ModelManager.models self')
      = (dict_keys (ModelManager.models self) ++ filter (deserializes fs) keys)%list
      /\ ModelManager.scaler self' = ModelManager.scaler self
      /\ ModelManager.model_names self' = ModelManager.model_names self
      /\ (forall entry, In entry lg -> In entry lg')
      /\ (forall key e, In key keys ->
            path_exists fs (key ++ ".joblib") = true ->
            load_model fs (key ++ ".joblib") = Raise e ->
            In (ERROR, "Erro " ++ key ++ ": " ++ e) lg').
Proof.
  induction keys as [|k ks IH]; intros self lg Hnodup Hfresh self' lg' Hfold.
  - simpl in Hfold. injection Hfold as <- <-.
    simpl. rewrite app_nil_r. repeat split; auto. intros ? ? [].
  - inversion Hnodup as [|? ? Hk Hks]; subst.
    simpl in Hfold. unfold deserializes at 1. simpl filter.
    fold (deserializes fs).
    destruct (path_exists fs (k ++ ".joblib")) eqn:Hex;
      [destruct (load_model fs (k ++ ".joblib")) as [m|e0] eqn:Hload|]; simpl.
    + (* the artifact loads *)
      assert (Hfresh' : forall k', In k' ks ->
                dict_in k' (ModelManager.models
                              (ModelManager.set_models (dict_set k m) self)) = false).
      { intros k' Hk'. apply dict_in_false_keys. simpl.
        rewrite dict_set_keys_new by (apply Hfresh; now left).
        rewrite in_app_iff. intros [Hin|[->|[]]].
        - apply dict_in_keys in Hin. rewrite Hfresh in Hin by now right. discriminate.
        - contradiction. }
      destruct (IH _ _ Hks Hfresh' _ _ Hfold) as (Hkeys & Hsc & Hnm & Hlog & Herr).
      simpl in Hkeys. rewrite dict_set_keys_new in Hkeys by (apply Hfresh; now left).
      rewrite <- app_assoc in Hkeys. simpl in Hkeys.
      repeat split; auto.
      * intros entry Hin. apply Hlog. apply In_emit. now left.
      * intros key e [->|Hin] Hex' Hload'; [congruence|]. now apply (Herr key e).
    + (* the artifact is there and fails to load *)
      assert (Hfresh' : forall k', In k' ks -> dict_in k' (ModelManager.models self) = false)
        by (intros; apply Hfresh; now right).
      destruct (IH _ _ Hks Hfresh' _ _ Hfold) as (Hkeys & Hsc & Hnm & Hlog & Herr).
      repeat split; auto.
      * intros entry Hin. apply Hlog. apply In_emit. now left.
      * intros key e [->|Hin] Hex' Hload'; [|now apply (Herr key e)].
        apply Hlog. apply In_emit. right. congruence.
    + (* no artifact *)
      assert (Hfresh' : forall k', In k' ks -> dict_in k' (ModelManager.models self) = false)
        by (intros; apply Hfresh; now right).
      destruct (IH _ _ Hks Hfresh' _ _ Hfold) as (Hkeys & Hsc & Hnm & Hlog & Herr).
      repeat split; auto.
      intros key e [->|Hin] Hex' Hload'; [congruence|]. now apply (Herr key e).
Qed.

(** The scaler step leaves the models alone; a scaler that fails to load
    leaves none and its warning. *)
Lemma load_scaler_step_spec (fs : FileSystem) (self : ModelManager.t) (lg : log)
    (self' : ModelManager.t) (lg' : log) :
  ModelManager.load_scaler_step fs (self, lg) = (self', lg') ->
  ModelManager.models self' = ModelManager.models self
  /\ ModelManager.model_names self' = ModelManager.model_names self
  /\ (forall entry, In entry lg -> In entry lg')
  /\ (forall e, path_exists fs "scaler.joblib" = true ->
        load_scaler fs "scaler.joblib" = Raise e ->
        ModelManager.scaler self' = ModelManager.scaler self
        /\ In (WARNING, "Erro scaler: " ++ e) lg').
Proof.
  unfold ModelManager.load_scaler_step.
  destruct (path_exists fs "scaler.joblib");
    [destruct (load_scaler fs "scaler.joblib") as [s|e0]|];
    intros H; injection H as <- <-; simpl; repeat split; auto;
    try (intros entry Hin; apply In_emit; now left);
    try discriminate.
  match goal with He : Raise _ = Raise _ |- _ => injection He as -> end.
  apply In_emit. now right.
Qed.

(** [load_models] on a manager that holds no model yet and whose display
    names have distinct keys. *)
Lemma load_models_run (fs : FileSystem) (self : ModelManager.t) :
  ModelManager.models self = [] ->
  NoDup (dict_keys (ModelManager.model_names self)) ->
  forall self' lg,
    ModelManager.load_models fs self = (self', lg) ->
    dict_keys (ModelManager.models self')
    = filter (deserializes fs) (dict_keys (ModelManager.model_names self))
    /\ ModelManager.model_names self' = ModelManager.model_names self
    /\ (forall key e, In key (dict_keys (ModelManager.model_names self)) ->
          path_exists fs (key ++ ".joblib") = true ->
          load_model fs (key ++ ".joblib") = Raise e ->
          In (ERROR, "Erro " ++ key ++ ": " ++ e) lg)
    /\ (forall e, path_exists fs "scaler.joblib" = true ->
          load_scaler fs "scaler.joblib" = Raise e ->
          ModelManager.scaler self' = ModelManager.scaler self
          /\ In (WARNING, "Erro scaler: " ++ e) lg)
    /\ (exists before,
          lg = emit before INFO
                 (str_of_nat (List.length (ModelManager.models self')) ++ " modelos disponíveis")).
Proof.
  intros Hempty Hnodup self' lg. unfold ModelManager.load_models.
  destruct (ModelManager.load_scaler_step fs (self, emit [] INFO "Carregando modelos..."))
    as [self1 lg1] eqn:Hstep.
  apply load_scaler_step_spec in Hstep as (Hmodels1 & Hnames1 & Hlog1 & Hscaler1).
  destruct (fold_left (ModelManager.load_model_step fs)
              (dict_keys (ModelManager.model_names self)) (self1, lg1))
    as [self2 lg2] eqn:Hloop.
  apply load_model_loop in Hloop as (Hkeys & Hscaler2 & Hnames & Hlog2 & Herr);
    [ | exact Hnodup | intros k _; now rewrite Hmodels1, Hempty ].
  rewrite Hmodels1, Hempty in Hkeys. simpl app in Hkeys.
  intros H; injection H as <- <-.
  split; [exact Hkeys|]. split; [now rewrite Hnames|]. split; [|split].
  - intros key e Hin Hex Hload. apply In_emit. left. now apply (Herr key e).
  - intros e Hex Hload. destruct (Hscaler1 e Hex Hload) as [Hnone Hwarn].
    split.
    + now rewrite Hscaler2, Hnone.
    + apply In_emit. left. apply Hlog2. exact Hwarn.
  - now exists lg2.
Qed.

Lemma known_names_nodup : NoDup (dict_keys known_names).
Proof.
  simpl. repeat constructor; simpl; intuition discriminate.
Qed.

Lemma init_models_keys (fs : FileSystem) :
  dict_keys (ModelManager.models (fst (ModelManager.init fs)))
  = filter (deserializes fs) (dict_keys known_names)
  /\ ModelManager.model_names (fst (ModelManager.init fs)) = known_names.
Proof.
  destruct (ModelManager.init fs) as [self lg] eqn:Hinit.
  unfold ModelManager.init in Hinit.
  apply load_models_run in Hinit as (Hkeys & Hnames & _);
    [ | reflexivity | exact known_names_nodup ].
  split; [exact Hkeys | exact Hnames].
Qed.

(** Every model a fresh manager holds has a display name. *)
Lemma init_models_named (fs : FileSystem) (key : string) :
  dict_in key (ModelManager.models (fst (ModelManager.init fs))) = true ->
  exists name,
    dict_get key (ModelManager.model_names (fst (ModelManager.init fs))) = Some name.
Proof.
  intros Hin. apply dict_in_keys in Hin.
  destruct (init_models_keys fs) as [Hkeys Hnames].
  rewrite Hkeys in Hin. apply filter_In in Hin as [Hin _].
  rewrite Hnames. apply dict_in_keys in Hin. unfold dict_in in Hin.
  destruct (dict_get key known_names) as [name|]; [now exists name | discriminate].
Qed.

Lemma emit_length (lg : log) (lv : level) (msg : string) :
  List.length (emit lg lv msg) = S (List.length lg).
Proof. unfold emit. rewrite length_app. simpl. lia. Qed.

(** The loop logs one line for each key whose file is there, and none for
    the others. *)
Lemma load_model_loop_line_count (fs : FileSystem) (keys : list string) :
  forall (self : ModelManager.t) (lg : log) self' lg',
    fold_left (ModelManager.load_model_step fs) keys (self, lg) = (self', lg') ->
    List.length lg'
    = List.length lg
      + List.length (filter (fun k => path_exists fs (k ++ ".joblib")) keys).
Proof.
  induction keys as [|k ks IH]; intros self lg self' lg' Hfold.
  - simpl in Hfold. injection Hfold as <- <-. simpl. lia.
  - cbn [fold_left] in Hfold. simpl filter.
    unfold ModelManager.load_model_step in Hfold at 2.
    destruct (path_exists fs (k ++ ".joblib"));
      [destruct (load_model fs (k ++ ".joblib")) as [m|e]|];
      apply IH in Hfold; rewrite Hfold; rewrite ?emit_length; simpl; lia.
Qed.

Lemma load_scaler_step_line_count (fs : FileSystem) (self : ModelManager.t) (lg : log)
    (self' : ModelManager.t) (lg' : log) :
  ModelManager.load_scaler_step fs (self, lg) = (self', lg') ->
  List.length lg'
  = List.length lg + (if path_exists fs "scaler.joblib" then 1 else 0).
Proof.
  unfold ModelManager.load_scaler_step.
  destruct (path_exists fs "scaler.joblib");
    [destruct (load_scaler fs "scaler.joblib") as [s|e]|];
    intros H; injection H as <- <-; rewrite ?emit_length; lia.
Qed.

(** [load_models] logs the opening line, one line for each file that is
    there, and the count. *)
Lemma load_models_line_count (fs : FileSystem) (self : ModelManager.t) :
  List.length (snd (ModelManager.load_models fs self))
  = 2 + (if path_exists fs "scaler.joblib" then 1 else 0)
      + List.length (filter (fun k => path_exists fs (k ++ ".joblib"))
                       (dict_keys (ModelManager.model_names self))).
Proof.
  unfold ModelManager.load_models.
  destruct (ModelManager.load_scaler_step fs (self, emit [] INFO "Carregando modelos..."))
    as [self1 lg1] eqn:Hstep.
  apply load_scaler_step_line_count in Hstep.
  destruct (fold_left (ModelManager.load_model_step fs)
              (dict_keys (ModelManager.model_names self)) (self1, lg1))
    as [self2 lg2] eqn:Hloop.
  apply load_model_loop_line_count in Hloop.
  cbn [snd]. rewrite emit_length, Hloop, Hstep, emit_length. simpl. lia.
Qed.

(** C8, as stated, fails at the directory that holds no artifact: the
    scaler file and the three model files are missing, and the log of
    [ModelManager()] is the opening line and the count, with no line for
    any of the four. *)
Lemma init_logs_nothing_for_missing_files :
  path_exists empty_fs "scaler.joblib" = false
  /\ path_exists empty_fs "logistic_regression.joblib" = false
  /\ path_exists empty_fs "random_forest.joblib" = false
  /\ path_exists empty_fs "gradient_boosting.joblib" = false
  /\ snd (ModelManager.init empty_fs)
     = [(INFO, "Carregando modelos..."); (INFO, "0 modelos disponíveis")].
Proof. repeat split; vm_compute; reflexivity. Qed.

(** C8, amended: [ModelManager()] always yields a manager, whatever the
    directory holds. Its models are exactly the known keys whose artifact is
    there and deserializes, in the order of [model_names], so their count is
    the number of those artifacts (none, when none deserializes). A model
    file that is there and fails to load is left out and has its line in
    the error log, and a scaler file that fails to load leaves no scaler and
    its line in the warning log. A model file that is missing is left out
    and a missing file has no line: the log holds the opening line, one line
    for each file that is there, and the count, which comes last. *)
Theorem init_loads_what_deserializes (fs : FileSystem) :
  let self := fst (ModelManager.init fs) in
  let lg := snd (ModelManager.init fs) in
  List.length (ModelManager.models self)
  = List.length (filter (deserializes fs) (dict_keys known_names))
  /\ dict_keys (ModelManager.models self) = filter (deserializes fs) (dict_keys known_names)
  /\ (forall key e, In key (dict_keys known_names) ->
        path_exists fs (key ++ ".joblib") = true ->
        load_model fs (key ++ ".joblib") = Raise e ->
        dict_in key (ModelManager.models self) = false
        /\ In (ERROR, "Erro " ++ key ++ ": " ++ e) lg)
  /\ (forall e, path_exists fs "scaler.joblib" = true ->
        load_scaler fs "scaler.joblib" = Raise e ->
        ModelManager.scaler self = None
        /\ In (WARNING, "Erro scaler: " ++ e) lg)
  /\ (exists before,
        lg = emit before INFO
               (str_of_nat (List.length (ModelManager.models self)) ++ " modelos disponíveis"))
  /\ (forall key, path_exists fs (key ++ ".joblib") = false ->
        dict_in key (ModelManager.models self) = false)
  /\ (path_exists fs "scaler.joblib" = false -> ModelManager.scaler self = None)
  /\ List.length lg
     = 2 + (if path_exists fs "scaler.joblib" then 1 else 0)
         + List.length (filter (fun k => path_exists fs (k ++ ".joblib"))
                          (dict_keys known_names)).
Proof.
  pose proof (load_models_line_count fs
                {| ModelManager.models := [];
                   ModelManager.scaler := None;
                   ModelManager.model_names := known_names |}) as Hlines.
  change (ModelManager.load_models fs _) with (ModelManager.init fs) in Hlines.
  change (dict_keys (ModelManager.model_names _)) with (dict_keys known_names) in Hlines.
  destruct (ModelManager.init fs) as [self lg] eqn:Hinit.
  unfold ModelManager.init in Hinit.
  pose proof Hinit as Hrun.
  apply load_models_run in Hrun as (Hkeys & _ & Herr & Hscaler & Hlast);
    [ | reflexivity | exact known_names_nodup ].
  cbv zeta. cbn [fst snd] in *.
  change (dict_keys (ModelManager.model_names _)) with (dict_keys known_names) in Hkeys, Herr.
  split; [now rewrite <- dict_keys_length, Hkeys|].
  split; [exact Hkeys|].
  split; [|split; [|split; [|split; [|split]]]].
  - intros key e Hin Hex Hload. split; [|now apply (Herr key e)].
    apply dict_in_false_keys. rewrite Hkeys. intros Hfilter.
    apply filter_In in Hfilter as [_ Hd].
    unfold deserializes in Hd. rewrite Hex, Hload in Hd. discriminate Hd.
  - intros e Hex Hload. exact (Hscaler e Hex Hload).
  - exact Hlast.
  - intros key Hex. apply dict_in_false_keys. rewrite Hkeys. intros Hfilter.
    apply filter_In in Hfilter as [_ Hd].
    unfold deserializes in Hd. rewrite Hex in Hd. discriminate Hd.
  - intros Hex.
    assert (Hs : ModelManager.scaler self
                 = ModelManager.scaler (fst (ModelManager.init fs)))
      by (unfold ModelManager.init; now rewrite Hinit).
    rewrite Hs. unfold ModelManager.init, ModelManager.load_models.
    unfold ModelManager.load_scaler_step. rewrite Hex.
    destruct (fold_left (ModelManager.load_model_step fs) _ _) as [self2 lg2] eqn:Hloop.
    apply load_model_loop in Hloop as (_ & Hsc & _);
      [ exact Hsc | exact known_names_nodup | intros k _; reflexivity ].
  - exact Hlines.
Qed.

(** The sample directory: one model loads, the failures are logged, and
    nothing is raised. *)
Example init_sample_fs :
  dict_keys (ModelManager.models (fst (ModelManager.init sample_fs))) = ["logistic_regression"]
  /\ snd (ModelManager.init sample_fs)
     = [(INFO, "Carregando modelos...");
        (WARNING, "Erro scaler: invalid load key");
        (INFO, "Modelo logistic_regression carregado");
        (ERROR, "Erro random_forest: unexpected end of file");
        (INFO, "1 modelos disponíveis")].
Proof. split; vm_compute; reflexivity. Qed.

(** ** The request boundary *)

Lemma validate_features_spec (v : list float) :
  (List.length v = 6 -> PredictionRequest.validate_features v = Ok v)
  /\ (List.length v <> 6 ->
      PredictionRequest.validate_features v = Raise "São necessárias 6 características").
Proof.
  unfold PredictionRequest.validate_features.
  destruct (Nat.eqb_spec (List.length v) 6) as [Heq|Hne]; simpl; split; intros H;
    try reflexivity; contradiction.
Qed.

(** C9: a body whose feature vector has not exactly 6 elements is refused
    with the validation error while the request is built, whatever the
    manager holds, so the handler and the dispatcher do not run; and when
    the handler runs, the vector it hands to [ModelManager.predict] is the
    caller's and has exactly 6 elements. *)
Theorem post_predict_requires_six_features
    (np_array_reshape : list float -> result matrix) (model_manager : ModelManager.t)
    (b : PredictionRequest.body) :
  (List.length (PredictionRequest.body_features b) <> 6 ->
   post_predict np_array_reshape model_manager b
   = RequestValidationError "São necessárias 6 características")
  /\ (forall r,
        post_predict np_array_reshape model_manager b = Handled r ->
        List.length (PredictionRequest.body_features b) = 6
        /\ exists request,
             PredictionRequest.make b = Ok request
             /\ PredictionRequest.features request = PredictionRequest.body_features b
             /\ r = ModelManager.predict np_array_reshape model_manager
                      (PredictionRequest.features request)
                      (PredictionRequest.model_name request)).
Proof.
  unfold post_predict, predict, PredictionRequest.make.
  destruct (validate_features_spec (PredictionRequest.body_features b)) as [Hok Hbad].
  destruct (Nat.eq_dec (List.length (PredictionRequest.body_features b)) 6) as [Heq|Hne].
  - rewrite (Hok Heq); simpl. split; [contradiction|].
    intros r H; injection H as <-. split; [exact Heq|].
    eexists. split; [reflexivity|]. split; reflexivity.
  - rewrite (Hbad Hne); simpl. split; [reflexivity | discriminate].
Qed.

Lemma post_predict_requires_six_features_witness :
  post_predict np_row (manager_of [])
    {| PredictionRequest.body_features := [0.5; 1.2; -0.3]%float;
       PredictionRequest.body_model_name := None |}
  = RequestValidationError "São necessárias 6 características".
Proof.
  apply (proj1 (post_predict_requires_six_features np_row (manager_of [])
                  {| PredictionRequest.body_features := [0.5; 1.2; -0.3]%float;
                     PredictionRequest.body_model_name := None |})).
  simpl. lia.
Defined.

(** The specification's end-to-end example through the endpoint. *)
Example post_predict_end_to_end :
  post_predict np_row
    (manager_of [("logistic_regression", stub_model 0.75 [0.2; 0.8]%float)])
    {| PredictionRequest.body_features := sample_features;
       PredictionRequest.body_model_name := Some (Some "logistic_regression") |}
  = Handled (Return {| PredictionResponse.prediction := 0.75;
                       PredictionResponse.probability := Some 0.8%float;
                       PredictionResponse.confidence := "Alto";
                       PredictionResponse.model_used := "Regressão Logística";
                       PredictionResponse.recommendation := "Aprovação recomendada" |}).
Proof. vm_compute. reflexivity. Qed.

(** * Further properties of the dispatcher, the loader and the endpoints *)

(** ** The order on floats *)

Lemma SFleb_trans (x y z : spec_float) :
  SFleb x y = true -> SFleb y z = true -> SFleb x z = true.
Proof.
  unfold SFleb.
  destruct x as [sx|sx| |sx mx ex], y as [sy|sy| |sy my ey], z as [sz|sz| |sz mz ez];
    simpl; try discriminate; try reflexivity;
    try (destruct sx; simpl; try discriminate; try reflexivity);
    try (destruct sy; simpl; try discriminate; try reflexivity);
    try (destruct sz; simpl; try discriminate; try reflexivity).
  all: rewrite ?Pos.compare_cont_spec; simpl.
  all: destruct (Z.compare_spec ex ey), (Z.compare_spec ey ez), (Z.compare_spec ex ez);
       simpl; try discriminate; try reflexivity; try lia; subst.
  all: destruct (Pos.compare_spec mx my), (Pos.compare_spec my mz), (Pos.compare_spec mx mz);
       simpl; try discriminate; try reflexivity; try lia.
Qed.

Lemma float_le_trans (x y z : float) :
  (x <=? y)%float = true -> (y <=? z)%float = true -> (x <=? z)%float = true.
Proof. rewrite !leb_spec. apply SFleb_trans. Qed.

(** A float that differs from itself is NaN. *)
Lemma SFeqb_irrefl_nan (x : spec_float) : SFeqb x x = false -> x = S754_nan.
Proof.
  unfold SFeqb. destruct x as [s|s| |s m e]; simpl; try (destruct s; discriminate); auto.
  destruct s; rewrite Z.compare_refl, Pos.compare_cont_refl; simpl; discriminate.
Qed.

(** NaN is [>=] nothing. *)
Lemma float_nan_not_ge (x c : float) :
  (x =? x)%float = false -> float_ge x c = false.
Proof.
  unfold float_ge. rewrite eqb_spec, leb_spec. intros Hnan.
  apply SFeqb_irrefl_nan in Hnan. rewrite Hnan.
  unfold SFleb. now destruct (Prim2SF c).
Qed.

Lemma float_nan_not_le (x c : float) :
  (x =? x)%float = false -> (x <=? c)%float = false.
Proof.
  rewrite eqb_spec, leb_spec. intros Hnan.
  apply SFeqb_irrefl_nan in Hnan. now rewrite Hnan.
Qed.

Lemma float_le_refl (x : float) : (x =? x)%float = true -> (x <=? x)%float = true.
Proof.
  rewrite eqb_spec, leb_spec. unfold SFeqb, SFleb.
  now destruct (SFcompare (Prim2SF x) (Prim2SF x)) as [[| |]|].
Qed.

Lemma float_lt_le (x y : float) : (x <? y)%float = true -> (x <=? y)%float = true.
Proof.
  rewrite ltb_spec, leb_spec. unfold SFltb, SFleb.
  now destruct (SFcompare (Prim2SF x) (Prim2SF y)) as [[| |]|].
Qed.

(** Both sides of a comparison that holds are numbers. *)
Lemma float_le_numbers (x y : float) :
  (x <=? y)%float = true -> (x =? x)%float = true /\ (y =? y)%float = true.
Proof.
  intros Hle. split.
  - destruct (x =? x)%float eqn:Hx; [reflexivity|].
    pose proof (float_nan_not_le x y Hx). congruence.
  - destruct (y =? y)%float eqn:Hy; [reflexivity|].
    pose proof (float_nan_not_ge y x Hy) as H. unfold float_ge in H. congruence.
Qed.

(** ** The labels, read backwards *)

Lemma confidence_label_alto_inv (score : float) :
  ModelManager.confidence_label score = "Alto" -> float_ge score 0.8 = true.
Proof.
  unfold ModelManager.confidence_label.
  destruct (float_ge score 0.8); [reflexivity|].
  destruct (float_ge score 0.6); discriminate.
Qed.

Lemma confidence_label_baixo_inv (score : float) :
  ModelManager.confidence_label score = "Baixo" ->
  float_ge score 0.8 = false /\ float_ge score 0.6 = false.
Proof.
  unfold ModelManager.confidence_label.
  destruct (float_ge score 0.8); [discriminate|].
  destruct (float_ge score 0.6); [discriminate|]. now split.
Qed.

Lemma recommendation_text_approval_inv (prediction : float) :
  ModelManager.recommendation_text prediction = "Aprovação recomendada" ->
  float_ge prediction 0.7 = true.
Proof.
  unfold ModelManager.recommendation_text.
  destruct (float_ge prediction 0.7); [reflexivity|].
  destruct (float_ge prediction 0.4); discriminate.
Qed.

Lemma recommendation_text_refusal_inv (prediction : float) :
  ModelManager.recommendation_text prediction = "Não recomendado" ->
  float_ge prediction 0.7 = false /\ float_ge prediction 0.4 = false.
Proof.
  unfold ModelManager.recommendation_text.
  destruct (float_ge prediction 0.7); [discriminate|].
  destruct (float_ge prediction 0.4); [discriminate|]. now split.
Qed.

(** A threshold passed by [x] is passed by every [y >= x]. *)
Lemma float_ge_upward (c x y : float) :
  (x <=? y)%float = true -> float_ge x c = true -> float_ge y c = true.
Proof. unfold float_ge. intros Hxy Hcx. exact (float_le_trans c x y Hcx Hxy). Qed.

Lemma float_ge_downward (c x y : float) :
  (x <=? y)%float = true -> float_ge y c = false -> float_ge x c = false.
Proof.
  intros Hxy Hy. destruct (float_ge x c) eqn:Hx; [|reflexivity].
  rewrite (float_ge_upward c x y Hxy Hx) in Hy. discriminate Hy.
Qed.

(** X1: the confidence label is monotone in the score. When [x <= y], a
    score [x] labeled "Alto" makes [y] "Alto", and a score [y] labeled
    "Baixo" makes [x] "Baixo". *)
Theorem confidence_label_monotone (x y : float) :
  (x <=? y)%float = true ->
  (ModelManager.confidence_label x = "Alto" -> ModelManager.confidence_label y = "Alto")
  /\ (ModelManager.confidence_label y = "Baixo" -> ModelManager.confidence_label x = "Baixo").
Proof.
  intros Hxy. split.
  - intros Hx. apply confidence_label_alto_inv in Hx.
    unfold ModelManager.confidence_label.
    now rewrite (float_ge_upward _ _ _ Hxy Hx).
  - intros Hy. apply confidence_label_baixo_inv in Hy as [H8 H6].
    unfold ModelManager.confidence_label.
    now rewrite (float_ge_downward _ _ _ Hxy H8), (float_ge_downward _ _ _ Hxy H6).
Qed.

Lemma confidence_label_monotone_witness :
  (ModelManager.confidence_label 0.85 = "Alto" -> ModelManager.confidence_label 0.9 = "Alto")
  /\ (ModelManager.confidence_label 0.9 = "Baixo" -> ModelManager.confidence_label 0.85 = "Baixo").
Proof.
  apply (confidence_label_monotone 0.85 0.9). reflexivity.
Defined.

(** X2: the recommendation is monotone in the prediction. When [x <= y], a
    prediction [x] with "Aprovação recomendada" gives [y] the same, and a
    prediction [y] with "Não recomendado" gives [x] the same. *)
Theorem recommendation_text_monotone (x y : float) :
  (x <=? y)%float = true ->
  (ModelManager.recommendation_text x = "Aprovação recomendada" ->
   ModelManager.recommendation_text y = "Aprovação recomendada")
  /\ (ModelManager.recommendation_text y = "Não recomendado" ->
      ModelManager.recommendation_text x = "Não recomendado").
Proof.
  intros Hxy. split.
  - intros Hx. apply recommendation_text_approval_inv in Hx.
    unfold ModelManager.recommendation_text.
    now rewrite (float_ge_upward _ _ _ Hxy Hx).
  - intros Hy. apply recommendation_text_refusal_inv in Hy as [H7 H4].
    unfold ModelManager.recommendation_text.
    now rewrite (float_ge_downward _ _ _ Hxy H7), (float_ge_downward _ _ _ Hxy H4).
Qed.

Lemma recommendation_text_monotone_witness :
  (ModelManager.recommendation_text 0.3 = "Aprovação recomendada" ->
   ModelManager.recommendation_text 0.35 = "Aprovação recomendada")
  /\ (ModelManager.recommendation_text 0.35 = "Não recomendado" ->
      ModelManager.recommendation_text 0.3 = "Não recomendado").
Proof.
  apply (recommendation_text_monotone 0.3 0.35). reflexivity.
Defined.

(** X3: a result whose prediction is NaN has the recommendation "Não
    recomendado"; without a probability its confidence is "Baixo", and so it
    is when the probability is NaN. *)
Theorem predict_nan_labels (np_array_reshape : list float -> result matrix)
    (self : ModelManager.t) (features : list float) (model_name : option string)
    (r : PredictionResponse.t) :
  ModelManager.predict np_array_reshape self features model_name = Return r ->
  (PredictionResponse.prediction r =? PredictionResponse.prediction r)%float = false ->
  PredictionResponse.recommendation r = "Não recomendado"
  /\ (PredictionResponse.probability r = None -> PredictionResponse.confidence r = "Baixo")
  /\ (forall p, PredictionResponse.probability r = Some p -> (p =? p)%float = false ->
        PredictionResponse.confidence r = "Baixo").
Proof.
  intros Hr Hnan.
  apply predict_return_inv in Hr as (key & y & probability & name & _ & _ & ->).
  simpl in *. split; [|split].
  - unfold ModelManager.recommendation_text.
    now rewrite !(float_nan_not_ge y _ Hnan).
  - intros ->. simpl. unfold ModelManager.confidence_label.
    now rewrite !(float_nan_not_ge y _ Hnan).
  - intros p -> Hp. unfold ModelManager.score_of, float_truthy.
    assert (Hz : (p =? 0)%float = false).
    { rewrite eqb_spec in Hp |- *. apply SFeqb_irrefl_nan in Hp. now rewrite Hp. }
    rewrite Hz; simpl. unfold ModelManager.confidence_label.
    now rewrite !(float_nan_not_ge p _ Hp).
Qed.

Lemma predict_nan_labels_witness :
  let r := result_of nan None "Random Forest" in
  PredictionResponse.recommendation r = "Não recomendado"
  /\ (PredictionResponse.probability r = None -> PredictionResponse.confidence r = "Baixo")
  /\ (forall p, PredictionResponse.probability r = Some p -> (p =? p)%float = false ->
        PredictionResponse.confidence r = "Baixo").
Proof.
  apply (predict_nan_labels np_row (manager_of [("random_forest", plain_model nan)])
           sample_features (Some "random_forest")).
  - vm_compute. reflexivity.
  - reflexivity.
Defined.

(** X4: in a result without a probability the two labels agree at the ends:
    the confidence "Alto" comes with "Aprovação recomendada", and "Não
    recomendado" comes with the confidence "Baixo". *)
Theorem predict_labels_agree_without_probability
    (np_array_reshape : list float -> result matrix)
    (self : ModelManager.t) (features : list float) (model_name : option string)
    (r : PredictionResponse.t) :
  ModelManager.predict np_array_reshape self features model_name = Return r ->
  PredictionResponse.probability r = None ->
  (PredictionResponse.confidence r = "Alto" ->
   PredictionResponse.recommendation r = "Aprovação recomendada")
  /\ (PredictionResponse.recommendation r = "Não recomendado" ->
      PredictionResponse.confidence r = "Baixo").
Proof.
  intros Hr Hnone.
  apply predict_return_inv in Hr as (key & y & probability & name & _ & _ & ->).
  simpl in *. subst probability. simpl. split.
  - intros Hhigh. apply confidence_label_alto_inv in Hhigh.
    unfold ModelManager.recommendation_text.
    assert (H7 : float_ge y 0.7 = true).
    { unfold float_ge in *. exact (float_le_trans 0.7 0.8 y eq_refl Hhigh). }
    now rewrite H7.
  - intros Hlow. apply recommendation_text_refusal_inv in Hlow as [H7 H4].
    unfold ModelManager.confidence_label.
    assert (H6 : float_ge y 0.6 = false).
    { destruct (float_ge y 0.6) eqn:H; [|reflexivity].
      unfold float_ge in *. rewrite (float_le_trans 0.4 0.6 y eq_refl H) in H4.
      discriminate H4. }
    assert (H8 : float_ge y 0.8 = false).
    { destruct (float_ge y 0.8) eqn:H; [|reflexivity].
      unfold float_ge in *. rewrite (float_le_trans 0.4 0.8 y eq_refl H) in H4.
      discriminate H4. }
    now rewrite H8, H6.
Qed.

Lemma predict_labels_agree_without_probability_witness :
  let r := result_of 1 None "Random Forest" in
  (PredictionResponse.confidence r = "Alto" ->
   PredictionResponse.recommendation r = "Aprovação recomendada")
  /\ (PredictionResponse.recommendation r = "Não recomendado" ->
      PredictionResponse.confidence r = "Baixo").
Proof.
  apply (predict_labels_agree_without_probability np_row
           (manager_of [("random_forest", plain_model 1)])
           sample_features (Some "random_forest")).
  - vm_compute. reflexivity.
  - reflexivity.
Defined.

(** ** The builtin [max] *)

Lemma fold_max_in (rest : list float) :
  forall cur,
    In (fold_left (fun cur item => if (cur <? item)%float then item else cur) rest cur)
       (cur :: rest).
Proof.
  induction rest as [|item rest IH]; intros cur; simpl.
  - now left.
  - destruct (IH (if (cur <? item)%float then item else cur)) as [H|H].
    + destruct (cur <? item)%float; rewrite <- H; auto.
    + auto.
Qed.

Lemma fold_max_upper (rest : list float) :
  forall cur,
    (cur =? cur)%float = true ->
    (forall x, In x rest -> (x =? x)%float = true) ->
    let m := fold_left (fun cur item => if (cur <? item)%float then item else cur) rest cur in
    (cur <=? m)%float = true /\ forall x, In x rest -> (x <=? m)%float = true.
Proof.
  induction rest as [|item rest IH]; intros cur Hcur Hrest; simpl.
  - split; [now apply float_le_refl | intros x []].
  - assert (Hitem : (item =? item)%float = true) by (apply Hrest; now left).
    set (cur' := if (cur <? item)%float then item else cur).
    assert (Hnext : (cur' =? cur')%float = true /\ (cur <=? cur')%float = true
                    /\ (item <=? cur')%float = true).
    { subst cur'. destruct (cur <? item)%float eqn:Hlt.
      - repeat split; [exact Hitem | now apply float_lt_le | now apply float_le_refl].
      - repeat split; [exact Hcur | now apply float_le_refl |].
        exact (float_ge_or_lt cur cur item (float_le_refl cur Hcur) Hitem Hlt). }
    destruct Hnext as (Hnum & Hle_cur & Hle_item).
    destruct (IH cur' Hnum (fun x Hx => Hrest x (or_intror Hx))) as [Hm Hall].
    split; [exact (float_le_trans _ _ _ Hle_cur Hm)|].
    intros x [<-|Hx]; [exact (float_le_trans _ _ _ Hle_item Hm) | now apply Hall].
Qed.

Lemma py_max_in (xs : list float) (p : float) : py_max xs = Ok p -> In p xs.
Proof.
  destruct xs as [|x rest]; simpl; [discriminate|].
  intros H; injection H as <-. apply fold_max_in.
Qed.

Lemma py_max_upper (xs : list float) (p : float) :
  py_max xs = Ok p ->
  (forall x, In x xs -> (x =? x)%float = true) ->
  forall x, In x xs -> (x <=? p)%float = true.
Proof.
  destruct xs as [|x0 rest]; simpl; [discriminate|].
  intros H Hnum; injection H as <-.
  destruct (fold_max_upper rest x0 (Hnum x0 (or_introl eq_refl))
              (fun x Hx => Hnum x (or_intror Hx))) as [H0 Hall].
  intros x [<-|Hx]; [exact H0 | now apply Hall].
Qed.

(** ** What the selected model is asked *)

(** X5: the probability of a result is [None] exactly when the selected
    model has no [predict_proba]; otherwise it is one of the values of the
    first row [predict_proba] answers on the prepared matrix, and, when no
    value of that row is NaN, it is [>=] each of them. *)
Theorem predict_probability_is_maximum (np_array_reshape : list float -> result matrix)
    (self : ModelManager.t) (features : list float) (model_name : option string)
    (r : PredictionResponse.t) :
  ModelManager.predict np_array_reshape self features model_name = Return r ->
  exists key model X,
    ModelManager.select_model self model_name = Some key
    /\ dict_get key (ModelManager.models self) = Some model
    /\ Prepared np_array_reshape self features X
    /\ match Model.predict_proba model with
       | None => PredictionResponse.probability r = None
       | Some predict_proba =>
           exists probs rows p,
             predict_proba X = Ok (probs :: rows)
             /\ PredictionResponse.probability r = Some p
             /\ In p probs
             /\ ((forall q, In q probs -> (q =? q)%float = true) ->
                 forall q, In q probs -> (q <=? p)%float = true)
       end.
Proof.
  intros Hr.
  apply predict_return_inv in Hr as (key & y & probability & name & Hsel & Hrun & ->).
  destruct Hrun as [X model ys HX Hmodel _ Hproba _].
  exists key, model, X. repeat split; auto.
  unfold Estimated in Hproba. simpl.
  destruct (Model.predict_proba model) as [f|]; [|exact Hproba].
  destruct Hproba as (probs & rows & p & Hf & Hmax & ->).
  exists probs, rows, p. repeat split; auto.
  - now apply py_max_in.
  - intros Hnum. now apply py_max_upper.
Qed.

Lemma predict_probability_is_maximum_witness :
  let self := manager_of [("logistic_regression", stub_model 0.75 [0.2; 0.8]%float)] in
  let r := result_of 0.75 (Some 0.8%float) "Regressão Logística" in
  exists key model X,
    ModelManager.select_model self (Some "logistic_regression") = Some key
    /\ dict_get key (ModelManager.models self) = Some model
    /\ Prepared np_row self sample_features X
    /\ match Model.predict_proba model with
       | None => PredictionResponse.probability r = None
       | Some predict_proba =>
           exists probs rows p,
             predict_proba X = Ok (probs :: rows)
             /\ PredictionResponse.probability r = Some p
             /\ In p probs
             /\ ((forall q, In q probs -> (q =? q)%float = true) ->
                 forall q, In q probs -> (q <=? p)%float = true)
       end.
Proof.
  apply (predict_probability_is_maximum np_row
           (manager_of [("logistic_regression", stub_model 0.75 [0.2; 0.8]%float)])
           sample_features (Some "logistic_regression")).
  vm_compute. reflexivity.
Defined.

(** X6: with a scaler loaded that is truthy and answers the row [features']
    on the row of [features], [predict] on [features] is [predict] on
    [features'] by the same manager without its scaler. *)
Theorem predict_scaler_commutes (self : ModelManager.t) (s : Scaler.t)
    (features features' : list float) (model_name : option string) :
  ModelManager.scaler self = Some s ->
  Scaler.truthy s = true ->
  Scaler.transform s [features] = Ok [features'] ->
  ModelManager.predict np_row self features model_name
  = ModelManager.predict np_row (ModelManager.set_scaler None self) features' model_name.
Proof.
  intros Hs Hb Ht. unfold ModelManager.predict.
  change (ModelManager.select_model (ModelManager.set_scaler None self) model_name)
    with (ModelManager.select_model self model_name).
  destruct (ModelManager.select_model self model_name) as [key|]; [|reflexivity].
  unfold ModelManager.predict_body, np_row. simpl.
  now rewrite Hs, Hb, Ht.
Qed.

Lemma predict_scaler_commutes_witness :
  let self := {| ModelManager.models := [("gradient_boosting", echo_model)];
                 ModelManager.scaler := Some halving_scaler;
                 ModelManager.model_names := known_names |} in
  ModelManager.predict np_row self [1; 3]%float (Some "gradient_boosting")
  = ModelManager.predict np_row (ModelManager.set_scaler None self) [0.5; 1.5]%float
      (Some "gradient_boosting").
Proof.
  apply (predict_scaler_commutes
           {| ModelManager.models := [("gradient_boosting", echo_model)];
              ModelManager.scaler := Some halving_scaler;
              ModelManager.model_names := known_names |}
           halving_scaler [1; 3]%float [0.5; 1.5]%float (Some "gradient_boosting")).
  - reflexivity.
  - reflexivity.
  - reflexivity.
Defined.

(** X23: a loaded scaler that is falsy is not applied: [predict] is then
    [predict] by the same manager without its scaler, on the same
    features, whatever the scaler's [transform] would answer. *)
Theorem predict_falsy_scaler_skipped (np_array_reshape : list float -> result matrix)
    (self : ModelManager.t) (s : Scaler.t)
    (features : list float) (model_name : option string) :
  ModelManager.scaler self = Some s ->
  Scaler.truthy s = false ->
  ModelManager.predict np_array_reshape self features model_name
  = ModelManager.predict np_array_reshape (ModelManager.set_scaler None self)
      features model_name.
Proof.
  intros Hs Hb. unfold ModelManager.predict.
  change (ModelManager.select_model (ModelManager.set_scaler None self) model_name)
    with (ModelManager.select_model self model_name).
  destruct (ModelManager.select_model self model_name) as [key|]; [|reflexivity].
  unfold ModelManager.predict_body. simpl.
  now rewrite Hs, Hb.
Qed.

Lemma predict_falsy_scaler_skipped_witness :
  let self := {| ModelManager.models := [("gradient_boosting", echo_model)];
                 ModelManager.scaler := Some falsy_scaler;
                 ModelManager.model_names := known_names |} in
  ModelManager.predict np_row self [1; 3]%float (Some "gradient_boosting")
  = ModelManager.predict np_row (ModelManager.set_scaler None self) [1; 3]%float
      (Some "gradient_boosting").
Proof.
  apply (predict_falsy_scaler_skipped np_row
           {| ModelManager.models := [("gradient_boosting", echo_model)];
              ModelManager.scaler := Some falsy_scaler;
              ModelManager.model_names := known_names |}
           falsy_scaler [1; 3]%float (Some "gradient_boosting")).
  - reflexivity.
  - reflexivity.
Defined.

(** X7: without a scaler the selected model is asked about the raw row: the
    prediction of a result is the first value its [predict] answers on the
    one-row matrix of the features as given. *)
Theorem predict_without_scaler_feeds_raw_row (self : ModelManager.t)
    (features : list float) (model_name : option string) (r : PredictionResponse.t) :
  ModelManager.scaler self = None ->
  ModelManager.predict np_row self features model_name = Return r ->
  exists key model ys,
    ModelManager.select_model self model_name = Some key
    /\ dict_get key (ModelManager.models self) = Some model
    /\ Model.predict model [features] = Ok (PredictionResponse.prediction r :: ys).
Proof.
  intros Hnone Hr.
  apply predict_return_inv in Hr as (key & y & probability & name & Hsel & Hrun & ->).
  destruct Hrun as [X model ys (X0 & Hnp & HX) Hmodel Hpredict _ _].
  rewrite Hnone in HX. unfold np_row in Hnp. injection Hnp as <-. subst X.
  now exists key, model, ys.
Qed.

Lemma predict_without_scaler_feeds_raw_row_witness :
  let self := manager_of [("gradient_boosting", echo_model)] in
  exists key model ys,
    ModelManager.select_model self (Some "gradient_boosting") = Some key
    /\ dict_get key (ModelManager.models self) = Some model
    /\ Model.predict model [sample_features]
       = Ok (PredictionResponse.prediction (result_of 0.5 None "Gradient Boosting") :: ys).
Proof.
  apply (predict_without_scaler_feeds_raw_row (manager_of [("gradient_boosting", echo_model)])
           sample_features (Some "gradient_boosting")).
  - reflexivity.
  - vm_compute. reflexivity.
Defined.

(** ** Which model answers, and how a call can fail *)

Lemma dict_get_in {V : Type} (k : string) (d : dict V) (v : V) :
  dict_get k d = Some v -> dict_in k d = true.
Proof. unfold dict_in. now intros ->. Qed.

(** X8: a requested identifier that is loaded is the one used, whatever else
    is loaded: the result's [model_used] is its display name, and the
    prediction is the first value that model's [predict] answers on the
    prepared matrix. *)
Theorem predict_uses_requested_model (np_array_reshape : list float -> result matrix)
    (self : ModelManager.t) (features : list float) (k : string) (model : Model.t)
    (r : PredictionResponse.t) :
  dict_get k (ModelManager.models self) = Some model ->
  ModelManager.predict np_array_reshape self features (Some k) = Return r ->
  dict_get k (ModelManager.model_names self) = Some (PredictionResponse.model_used r)
  /\ exists X ys,
       Prepared np_array_reshape self features X
       /\ Model.predict model X = Ok (PredictionResponse.prediction r :: ys).
Proof.
  intros Hk Hr.
  apply predict_return_inv in Hr as (key & y & probability & name & Hsel & Hrun & ->).
  rewrite (select_model_present self k (dict_get_in _ _ _ Hk)) in Hsel.
  injection Hsel as <-.
  destruct Hrun as [X model' ys HX Hmodel Hpredict _ Hname].
  assert (model' = model) by congruence. subst model'.
  split; [exact Hname|]. now exists X, ys.
Qed.

Lemma predict_uses_requested_model_witness :
  let self := manager_of [("random_forest", plain_model 0.5);
                          ("gradient_boosting", stub_model 1 [0.1; 0.9]%float)] in
  let r := result_of 1 (Some 0.9%float) "Gradient Boosting" in
  dict_get "gradient_boosting" (ModelManager.model_names self)
  = Some (PredictionResponse.model_used r)
  /\ exists X ys,
       Prepared np_row self sample_features X
       /\ Model.predict (stub_model 1 [0.1; 0.9]%float) X
          = Ok (PredictionResponse.prediction r :: ys).
Proof.
  apply (predict_uses_requested_model np_row
           (manager_of [("random_forest", plain_model 0.5);
                        ("gradient_boosting", stub_model 1 [0.1; 0.9]%float)])
           sample_features "gradient_boosting").
  - reflexivity.
  - vm_compute. reflexivity.
Defined.

(** X9: the only exceptions [predict] raises are the 503 "Nenhum modelo
    disponível", raised exactly when no model is loaded, and the 500 whose
    detail is "Erro: " followed by the description of an exception raised
    inside the [try]. *)
Theorem predict_http_exceptions (np_array_reshape : list float -> result matrix)
    (self : ModelManager.t) (features : list float) (model_name : option string) :
  (ModelManager.models self = [] <->
   ModelManager.predict np_array_reshape self features model_name
   = HTTPException 503 "Nenhum modelo disponível")
  /\ (forall status_code detail,
        ModelManager.predict np_array_reshape self features model_name
        = HTTPException status_code detail ->
        (status_code = 503 /\ detail = "Nenhum modelo disponível"
         /\ ModelManager.models self = [])
        \/ (status_code = 500
            /\ exists key e,
                 ModelManager.select_model self model_name = Some key
                 /\ Raises np_array_reshape self features key e
                 /\ detail = "Erro: " ++ e)).
Proof.
  assert (Hclass : forall status_code detail,
    ModelManager.predict np_array_reshape self features model_name
    = HTTPException status_code detail ->
    (status_code = 503 /\ detail = "Nenhum modelo disponível"
     /\ ModelManager.models self = [])
    \/ (status_code = 500
        /\ exists key e,
             ModelManager.select_model self model_name = Some key
             /\ Raises np_array_reshape self features key e
             /\ detail = "Erro: " ++ e)).
  { intros status_code detail. unfold ModelManager.predict.
    destruct (ModelManager.select_model self model_name) as [key|] eqn:Hsel.
    - destruct (ModelManager.predict_body np_array_reshape self features key)
        as [r|e] eqn:Hbody; [discriminate|].
      intros H; injection H as <- <-. right. split; [reflexivity|].
      exists key, e. repeat split. now apply predict_body_raise_inv.
    - intros H; injection H as <- <-. left. repeat split.
      destruct (ModelManager.models self) as [|kv d] eqn:Hm; [reflexivity|].
      assert (Hne : ModelManager.models self <> []) by (rewrite Hm; discriminate).
      destruct (select_model_nonempty self model_name Hne) as [key Hkey]. congruence. }
  split; [|exact Hclass]. split.
  - intros Hempty. unfold ModelManager.predict.
    now rewrite (select_model_empty _ _ Hempty).
  - intros H. destruct (Hclass _ _ H) as [(_ & _ & Hempty)|[H500 _]];
      [exact Hempty | discriminate H500].
Qed.

(** X10: a call with a loaded identifier depends on the manager only through
    the scaler, the display names and the model under that identifier: two
    managers that agree on these give the same outcome, whatever other
    models they hold and in whatever order. *)
Theorem predict_depends_on_selected_model (np_array_reshape : list float -> result matrix)
    (a b : ModelManager.t) (features : list float) (k : string) (model : Model.t) :
  dict_get k (ModelManager.models a) = Some model ->
  dict_get k (ModelManager.models b) = Some model ->
  ModelManager.scaler a = ModelManager.scaler b ->
  ModelManager.model_names a = ModelManager.model_names b ->
  ModelManager.predict np_array_reshape a features (Some k)
  = ModelManager.predict np_array_reshape b features (Some k).
Proof.
  intros Ha Hb Hscaler Hnames. unfold ModelManager.predict.
  rewrite (select_model_present a k (dict_get_in _ _ _ Ha)).
  rewrite (select_model_present b k (dict_get_in _ _ _ Hb)).
  unfold ModelManager.predict_body, dict_getitem.
  now rewrite Ha, Hb, Hscaler, Hnames.
Qed.

Lemma predict_depends_on_selected_model_witness :
  ModelManager.predict np_row
    (manager_of [("random_forest", plain_model 0.5);
                 ("gradient_boosting", stub_model 1 [0.1; 0.9]%float)])
    sample_features (Some "random_forest")
  = ModelManager.predict np_row
      (manager_of [("logistic_regression", failing_model "Input contains NaN.");
                   ("random_forest", plain_model 0.5)])
      sample_features (Some "random_forest").
Proof.
  apply (predict_depends_on_selected_model np_row
           (manager_of [("random_forest", plain_model 0.5);
                        ("gradient_boosting", stub_model 1 [0.1; 0.9]%float)])
           (manager_of [("logistic_regression", failing_model "Input contains NaN.");
                        ("random_forest", plain_model 0.5)])
           sample_features "random_forest" (plain_model 0.5)).
  - reflexivity.
  - reflexivity.
  - reflexivity.
  - reflexivity.
Defined.

(** ** Lookups after loading *)

Lemma dict_get_set_same {V : Type} (k : string) (v : V) (d : dict V) :
  dict_get k (dict_set k v d) = Some v.
Proof.
  induction d as [|[k' v'] d IH]; simpl.
  - now rewrite String.eqb_refl.
  - destruct (String.eqb k k') eqn:Hk; simpl; rewrite Hk; [reflexivity | exact IH].
Qed.

Lemma dict_get_set_other {V : Type} (k k0 : string) (v : V) (d : dict V) :
  k <> k0 -> dict_get k (dict_set k0 v d) = dict_get k d.
Proof.
  intros Hne. induction d as [|[k' v'] d IH]; simpl.
  - destruct (String.eqb_spec k k0); [contradiction | reflexivity].
  - destruct (String.eqb_spec k0 k') as [->|Hk0]; simpl.
    + destruct (String.eqb_spec k k'); [contradiction | reflexivity].
    + destruct (String.eqb k k'); [reflexivity | exact IH].
Qed.

(** Storing the value a key already has changes nothing. *)
Lemma dict_set_same_value {V : Type} (k : string) (v : V) (d : dict V) :
  dict_get k d = Some v -> dict_set k v d = d.
Proof.
  induction d as [|[k' v'] d IH]; simpl; [discriminate|].
  destruct (String.eqb k k').
  - intros H; now injection H as ->.
  - intros H. now rewrite IH.
Qed.

Lemma existsb_keys_dict_in {V : Type} (k : string) (d : dict V) :
  existsb (String.eqb k) (dict_keys d) = dict_in k d.
Proof.
  unfold dict_in. induction d as [|[k' v] d IH]; simpl; [reflexivity|].
  destruct (String.eqb k k'); [reflexivity | exact IH].
Qed.

(** The loop over the model keys from any state: under a key of [keys]
    whose artifact deserializes lies the object just loaded, under every
    other key what lay there before; the scaler and the display names are
    not touched. *)
Lemma load_model_loop_lookup (fs : FileSystem) (keys : list string) :
  forall (self : ModelManager.t) (lg : log) self' lg',
    fold_left (ModelManager.load_model_step fs) keys (self, lg) = (self', lg') ->
    ModelManager.scaler self' = ModelManager.scaler self
    /\ ModelManager.model_names self' = ModelManager.model_names self
    /\ forall k,
         dict_get k (ModelManager.models self')
         = if existsb (String.eqb k) keys && deserializes fs k
           then match load_model fs (k ++ ".joblib") with
                | Ok m => Some m
                | Raise _ => None
                end
           else dict_get k (ModelManager.models self).
Proof.
  induction keys as [|k0 ks IH]; intros self lg self' lg' Hfold.
  - simpl in Hfold. injection Hfold as <- <-. now repeat split.
  - cbn [fold_left] in Hfold.
    assert (Hstep : exists self1 lg1,
      ModelManager.load_model_step fs (self, lg) k0 = (self1, lg1)
      /\ ModelManager.scaler self1 = ModelManager.scaler self
      /\ ModelManager.model_names self1 = ModelManager.model_names self
      /\ forall k,
           dict_get k (ModelManager.models self1)
           = if String.eqb k k0 && deserializes fs k
             then match load_model fs (k ++ ".joblib") with
                  | Ok m => Some m
                  | Raise _ => None
                  end
             else dict_get k (ModelManager.models self)).
    { unfold ModelManager.load_model_step, deserializes.
      destruct (path_exists fs (k0 ++ ".joblib")) eqn:Hex;
        [destruct (load_model fs (k0 ++ ".joblib")) as [m|e] eqn:Hload|].
      - eexists _, _. split; [reflexivity|]. repeat split. intros k. simpl.
        destruct (String.eqb_spec k k0) as [->|Hne]; simpl.
        + rewrite Hex, Hload. simpl. apply dict_get_set_same.
        + now apply dict_get_set_other.
      - eexists _, _. split; [reflexivity|]. repeat split. intros k.
        destruct (String.eqb_spec k k0) as [->|Hne]; simpl; [|reflexivity].
        rewrite Hex, Hload. reflexivity.
      - eexists _, _. split; [reflexivity|]. repeat split. intros k.
        destruct (String.eqb_spec k k0) as [->|Hne]; simpl; [|reflexivity].
        rewrite Hex. reflexivity. }
    destruct Hstep as (self1 & lg1 & Hstep & Hsc1 & Hnm1 & Hget1).
    rewrite Hstep in Hfold.
    destruct (IH _ _ _ _ Hfold) as (Hsc & Hnm & Hget).
    split; [congruence|]. split; [congruence|].
    intros k. rewrite Hget, Hget1. simpl.
    destruct (String.eqb k k0), (existsb (String.eqb k) ks), (deserializes fs k);
      reflexivity.
Qed.

Lemma load_scaler_step_lookup (fs : FileSystem) (self : ModelManager.t) (lg : log) :
  exists self' lg',
    ModelManager.load_scaler_step fs (self, lg) = (self', lg')
    /\ ModelManager.models self' = ModelManager.models self
    /\ ModelManager.model_names self' = ModelManager.model_names self
    /\ ModelManager.scaler self'
       = if path_exists fs "scaler.joblib"
         then match load_scaler fs "scaler.joblib" with
              | Ok s => Some s
              | Raise _ => ModelManager.scaler self
              end
         else ModelManager.scaler self.
Proof.
  unfold ModelManager.load_scaler_step.
  destruct (path_exists fs "scaler.joblib");
    [destruct (load_scaler fs "scaler.joblib") as [s|e]|];
    eexists _, _; (split; [reflexivity|]); now repeat split.
Qed.

(** [load_models] from any state, as lookups. *)
Lemma load_models_lookup_run (fs : FileSystem) (self : ModelManager.t) :
  let self' := fst (ModelManager.load_models fs self) in
  ModelManager.model_names self' = ModelManager.model_names self
  /\ ModelManager.scaler self'
     = (if path_exists fs "scaler.joblib"
        then match load_scaler fs "scaler.joblib" with
             | Ok s => Some s
             | Raise _ => ModelManager.scaler self
             end
        else ModelManager.scaler self)
  /\ forall k,
       dict_get k (ModelManager.models self')
       = if dict_in k (ModelManager.model_names self) && deserializes fs k
         then match load_model fs (k ++ ".joblib") with
              | Ok m => Some m
              | Raise _ => None
              end
         else dict_get k (ModelManager.models self).
Proof.
  unfold ModelManager.load_models.
  destruct (load_scaler_step_lookup fs self (emit [] INFO "Carregando modelos..."))
    as (self1 & lg1 & Hstep & Hm1 & Hn1 & Hs1).
  rewrite Hstep.
  destruct (fold_left (ModelManager.load_model_step fs)
              (dict_keys (ModelManager.model_names self)) (self1, lg1))
    as [self2 lg2] eqn:Hloop.
  apply load_model_loop_lookup in Hloop as (Hs2 & Hn2 & Hget).
  cbn [fst]. split; [congruence|]. split; [congruence|].
  intros k. rewrite Hget, Hm1.
  now rewrite existsb_keys_dict_in.
Qed.

(** [__init__] is [load_models] on the manager that holds nothing yet. *)
Lemma init_load_models (fs : FileSystem) :
  ModelManager.init fs = ModelManager.load_models fs (manager_of []).
Proof. reflexivity. Qed.

(** X11: in a fresh manager the model under a key is the object
    [joblib.load] answered for that key's artifact; a key holds a model
    exactly when it is one of the three known keys, its file is there and
    it loads. *)
Theorem init_model_lookup (fs : FileSystem) (key : string) (m : Model.t) :
  dict_get key (ModelManager.models (fst (ModelManager.init fs))) = Some m
  <-> In key (dict_keys known_names)
      /\ path_exists fs (key ++ ".joblib") = true
      /\ load_model fs (key ++ ".joblib") = Ok m.
Proof.
  rewrite init_load_models.
  destruct (load_models_lookup_run fs (manager_of [])) as (_ & _ & Hget).
  cbv zeta in Hget. rewrite (Hget key).
  change (ModelManager.model_names (manager_of [])) with known_names.
  change (dict_get key (ModelManager.models (manager_of []))) with (@None Model.t).
  unfold deserializes. rewrite <- dict_in_keys.
  destruct (dict_in key known_names); simpl.
  - destruct (path_exists fs (key ++ ".joblib")); simpl.
    + destruct (load_model fs (key ++ ".joblib")) as [m'|e]; simpl.
      * split; [intros H; injection H as ->; auto | intros (_ & _ & H); congruence].
      * split; [discriminate | intros (_ & _ & H); discriminate H].
    + split; [discriminate | intros (_ & H & _); discriminate H].
  - split; [discriminate | intros (H & _); discriminate H].
Qed.

(** X12: a fresh manager has a scaler exactly when the scaler file is there
    and loads, and the scaler is the loaded object. *)
Theorem init_scaler_lookup (fs : FileSystem) (s : Scaler.t) :
  ModelManager.scaler (fst (ModelManager.init fs)) = Some s
  <-> path_exists fs "scaler.joblib" = true /\ load_scaler fs "scaler.joblib" = Ok s.
Proof.
  rewrite init_load_models.
  destruct (load_models_lookup_run fs (manager_of [])) as (_ & Hs & _).
  cbv zeta in Hs. rewrite Hs.
  change (ModelManager.scaler (manager_of [])) with (@None Scaler.t).
  destruct (path_exists fs "scaler.joblib").
  - destruct (load_scaler fs "scaler.joblib") as [s'|e].
    + split; [intros H; injection H as ->; auto | intros [_ H]; congruence].
    + split; [discriminate | intros [_ H]; discriminate H].
  - split; [discriminate | intros [H _]; discriminate H].
Qed.

(** X13: [load_models] never unloads: on any manager and any directory, a
    key that held a model still holds one afterwards, and the display names
    are the same. *)
Theorem load_models_never_unloads (fs : FileSystem) (self : ModelManager.t) (k : string) :
  dict_in k (ModelManager.models self) = true ->
  dict_in k (ModelManager.models (fst (ModelManager.load_models fs self))) = true
  /\ ModelManager.model_names (fst (ModelManager.load_models fs self))
     = ModelManager.model_names self.
Proof.
  intros Hin.
  destruct (load_models_lookup_run fs self) as (Hnames & _ & Hget).
  cbv zeta in Hnames, Hget. split; [|exact Hnames].
  unfold dict_in at 1. rewrite (Hget k).
  destruct (dict_in k (ModelManager.model_names self) && deserializes fs k) eqn:Hd;
    [|exact Hin].
  apply andb_prop in Hd as [_ Hd]. unfold deserializes in Hd.
  apply andb_prop in Hd as [_ Hok].
  now destruct (load_model fs (k ++ ".joblib")).
Qed.

Lemma load_models_never_unloads_witness :
  dict_in "random_forest"
    (ModelManager.models
       (fst (ModelManager.load_models empty_fs
               (manager_of [("random_forest", plain_model 0.5)])))) = true
  /\ ModelManager.model_names
       (fst (ModelManager.load_models empty_fs
               (manager_of [("random_forest", plain_model 0.5)])))
     = ModelManager.model_names (manager_of [("random_forest", plain_model 0.5)]).
Proof.
  apply (load_models_never_unloads empty_fs
           (manager_of [("random_forest", plain_model 0.5)]) "random_forest").
  reflexivity.
Defined.

(** X14: [load_models] refreshes: on any manager, after the call a key with
    a display name whose artifact is there and loads holds the object just
    loaded, whatever it held before. *)
Theorem load_models_refreshes (fs : FileSystem) (self : ModelManager.t)
    (k : string) (m : Model.t) :
  dict_in k (ModelManager.model_names self) = true ->
  path_exists fs (k ++ ".joblib") = true ->
  load_model fs (k ++ ".joblib") = Ok m ->
  dict_get k (ModelManager.models (fst (ModelManager.load_models fs self))) = Some m.
Proof.
  intros Hnamed Hex Hload.
  destruct (load_models_lookup_run fs self) as (_ & _ & Hget).
  cbv zeta in Hget. rewrite (Hget k). unfold deserializes.
  now rewrite Hnamed, Hex, Hload.
Qed.

Lemma load_models_refreshes_witness :
  dict_get "random_forest"
    (ModelManager.models
       (fst (ModelManager.load_models full_fs
               (manager_of [("random_forest", failing_model "stale")]))))
  = Some (plain_model 0.5).
Proof.
  apply (load_models_refreshes full_fs
           (manager_of [("random_forest", failing_model "stale")])
           "random_forest" (plain_model 0.5)).
  - reflexivity.
  - reflexivity.
  - reflexivity.
Defined.

(** ** Loading twice *)

Lemma set_models_same (self : ModelManager.t) (k : string) (m : Model.t) :
  dict_get k (ModelManager.models self) = Some m ->
  ModelManager.set_models (dict_set k m) self = self.
Proof.
  intros H. unfold ModelManager.set_models.
  rewrite (dict_set_same_value _ _ _ H). now destruct self.
Qed.

(** From a state that already holds what the directory gives, the loop
    changes nothing of the manager. *)
Lemma load_model_loop_fixpoint (fs : FileSystem) (self : ModelManager.t)
    (keys : list string) :
  (forall k m, In k keys -> path_exists fs (k ++ ".joblib") = true ->
     load_model fs (k ++ ".joblib") = Ok m ->
     dict_get k (ModelManager.models self) = Some m) ->
  forall lg, exists lg',
    fold_left (ModelManager.load_model_step fs) keys (self, lg) = (self, lg').
Proof.
  induction keys as [|k ks IH]; intros Hheld lg.
  - now exists lg.
  - cbn [fold_left].
    assert (Hstep : exists lg1, ModelManager.load_model_step fs (self, lg) k = (self, lg1)).
    { unfold ModelManager.load_model_step.
      destruct (path_exists fs (k ++ ".joblib")) eqn:Hex; [|now exists lg].
      destruct (load_model fs (k ++ ".joblib")) as [m|e] eqn:Hload.
      - rewrite (set_models_same self k m (Hheld k m (or_introl eq_refl) Hex Hload)).
        now eexists.
      - now eexists. }
    destruct Hstep as [lg1 ->].
    apply IH. intros k' m Hin. apply Hheld. now right.
Qed.

(** X15: [load_models] is idempotent on the manager: on any manager, a
    second call over the same directory leaves the models (objects and
    order), the scaler and the display names as the first call left them. *)
Theorem load_models_idempotent (fs : FileSystem) (self : ModelManager.t) :
  fst (ModelManager.load_models fs (fst (ModelManager.load_models fs self)))
  = fst (ModelManager.load_models fs self).
Proof.
  destruct (load_models_lookup_run fs self) as (Hnames & Hscaler & Hget).
  cbv zeta in Hnames, Hscaler, Hget.
  set (self1 := fst (ModelManager.load_models fs self)) in *.
  unfold ModelManager.load_models at 1.
  assert (Hstep : exists lg1,
    ModelManager.load_scaler_step fs (self1, emit [] INFO "Carregando modelos...")
    = (self1, lg1)).
  { unfold ModelManager.load_scaler_step.
    destruct (path_exists fs "scaler.joblib"); [|now eexists].
    destruct (load_scaler fs "scaler.joblib") as [s|e]; [|now eexists].
    unfold ModelManager.set_scaler. rewrite <- Hscaler.
    destruct self1; now eexists. }
  destruct Hstep as [lg1 ->].
  destruct (load_model_loop_fixpoint fs self1 (dict_keys (ModelManager.model_names self1)))
    with (lg := lg1) as [lg2 Hloop].
  { intros k m Hin Hex Hload. rewrite (Hget k).
    rewrite Hnames in Hin. apply dict_in_keys in Hin.
    unfold deserializes. now rewrite Hin, Hex, Hload. }
  rewrite Hloop. reflexivity.
Qed.

(** ** [/health] and [/models] *)

(** X16: on a fresh manager [/health] answers, as available, exactly the
    known identifiers whose artifact deserialized, in the order
    logistic_regression, random_forest, gradient_boosting, and
    [models_loaded] is their number, at most 3. *)
Theorem health_after_init (fs : FileSystem) :
  let h := health (fst (ModelManager.init fs)) in
  HealthResponse.available_models h
  = filter (deserializes fs) ["logistic_regression"; "random_forest"; "gradient_boosting"]
  /\ HealthResponse.models_loaded h = List.length (HealthResponse.available_models h)
  /\ HealthResponse.models_loaded h <= 3
  /\ HealthResponse.message h = "API funcionando".
Proof.
  destruct (init_models_keys fs) as [Hkeys _].
  cbv zeta. unfold health. cbn [HealthResponse.available_models
    HealthResponse.models_loaded HealthResponse.message].
  rewrite <- dict_keys_length, Hkeys.
  change (dict_keys known_names)
    with ["logistic_regression"; "random_forest"; "gradient_boosting"].
  repeat split.
  exact (filter_length_le (deserializes fs)
           ["logistic_regression"; "random_forest"; "gradient_boosting"]).
Qed.

Lemma models_entries_named (mm : ModelManager.t) (keys : list string)
    (entries : list ModelEntry.t) :
  models_entries mm keys = Ok entries ->
  map ModelEntry.key entries = keys
  /\ forall e, In e entries ->
       dict_get (ModelEntry.key e) (ModelManager.model_names mm) = Some (ModelEntry.name e).
Proof.
  revert entries. induction keys as [|k ks IH]; intros entries; simpl.
  - intros H; injection H as <-. split; [reflexivity | intros e []].
  - unfold dict_getitem.
    destruct (dict_get k (ModelManager.model_names mm)) as [name|] eqn:Hk; simpl;
      [|discriminate].
    destruct (models_entries mm ks) as [rest|e] eqn:Hrest; simpl; [|discriminate].
    intros H; injection H as <-.
    destruct (IH rest eq_refl) as [Hkeys Hnames].
    split; [simpl; now rewrite Hkeys|].
    intros e [<-|Hin]; [exact Hk | now apply Hnames].
Qed.

Lemma models_entries_key_error (mm : ModelManager.t) (before after : list string) (k : string) :
  (forall k', In k' before -> dict_in k' (ModelManager.model_names mm) = true) ->
  dict_in k (ModelManager.model_names mm) = false ->
  models_entries mm (before ++ k :: after) = Raise ("'" ++ k ++ "'").
Proof.
  unfold dict_in. induction before as [|k0 ks IH]; intros Hbefore Hk; simpl.
  - unfold dict_getitem.
    now destruct (dict_get k (ModelManager.model_names mm)).
  - unfold dict_getitem.
    specialize (Hbefore k0 (or_introl eq_refl)) as Hk0.
    destruct (dict_get k0 (ModelManager.model_names mm)); [|discriminate Hk0]. simpl.
    rewrite IH; [reflexivity | | exact Hk].
    intros k' Hin. apply Hbefore. now right.
Qed.

(** X17: when [/models] answers, its entries are the loaded keys, in the
    order [/health] lists them as available, each with its display name. *)
Theorem list_models_entries (mm : ModelManager.t) (entries : list ModelEntry.t) :
  list_models mm = Ok entries ->
  map ModelEntry.key entries = HealthResponse.available_models (health mm)
  /\ forall e, In e entries ->
       dict_get (ModelEntry.key e) (ModelManager.model_names mm) = Some (ModelEntry.name e).
Proof. unfold list_models. apply models_entries_named. Qed.

Lemma list_models_entries_witness :
  let mm := manager_of [("random_forest", plain_model 0.5);
                        ("gradient_boosting", echo_model)] in
  let entries := [ {| ModelEntry.key := "random_forest"; ModelEntry.name := "Random Forest" |};
                   {| ModelEntry.key := "gradient_boosting";
                      ModelEntry.name := "Gradient Boosting" |} ] in
  map ModelEntry.key entries = HealthResponse.available_models (health mm)
  /\ forall e, In e entries ->
       dict_get (ModelEntry.key e) (ModelManager.model_names mm) = Some (ModelEntry.name e).
Proof.
  apply (list_models_entries
           (manager_of [("random_forest", plain_model 0.5);
                        ("gradient_boosting", echo_model)])).
  reflexivity.
Defined.

(** X18: [/models] raises the [KeyError] of the first loaded key that has no
    display name; the entries of the keys before it are lost with it. *)
Theorem list_models_key_error (mm : ModelManager.t) (before after : list string)
    (k : string) :
  dict_keys (ModelManager.models mm) = (before ++ k :: after)%list ->
  (forall k', In k' before -> dict_in k' (ModelManager.model_names mm) = true) ->
  dict_in k (ModelManager.model_names mm) = false ->
  list_models mm = Raise ("'" ++ k ++ "'").
Proof.
  intros Hkeys Hbefore Hk. unfold list_models. rewrite Hkeys.
  now apply models_entries_key_error.
Qed.

Lemma list_models_key_error_witness :
  list_models (manager_of [("random_forest", plain_model 0.5); ("svm", plain_model 1)])
  = Raise "'svm'".
Proof.
  apply (list_models_key_error
           (manager_of [("random_forest", plain_model 0.5); ("svm", plain_model 1)])
           ["random_forest"] [] "svm").
  - reflexivity.
  - intros k' [<-|[]]. reflexivity.
  - reflexivity.
Defined.

(** X19: on a fresh manager [/models] never raises: it answers the loaded
    keys with their display names, that is the entries of [model_names]
    whose artifact deserialized, in that order. *)
Theorem list_models_after_init (fs : FileSystem) :
  list_models (fst (ModelManager.init fs))
  = Ok (map (fun kv => {| ModelEntry.key := fst kv; ModelEntry.name := snd kv |})
          (filter (fun kv => deserializes fs (fst kv)) known_names)).
Proof.
  destruct (init_models_keys fs) as [Hkeys Hnames].
  unfold list_models. rewrite Hkeys.
  assert (Hgen : forall keys,
    models_entries (fst (ModelManager.init fs)) keys
    = models_entries (manager_of []) keys).
  { induction keys as [|k ks IH]; simpl; [reflexivity|]. now rewrite Hnames, IH. }
  rewrite Hgen. simpl.
  destruct (deserializes fs "logistic_regression"),
    (deserializes fs "random_forest"), (deserializes fs "gradient_boosting");
    reflexivity.
Qed.

(** ** From the directory to the reply *)

Lemma predict_503_inv (np_array_reshape : list float -> result matrix)
    (self : ModelManager.t) (features : list float) (model_name : option string)
    (detail : string) :
  ModelManager.predict np_array_reshape self features model_name
  = HTTPException 503 detail ->
  ModelManager.models self = [].
Proof.
  unfold ModelManager.predict.
  destruct (ModelManager.select_model self model_name) as [key|] eqn:Hsel.
  - destruct (ModelManager.predict_body np_array_reshape self features key); discriminate.
  - intros _. destruct (ModelManager.models self) as [|kv d] eqn:Hm; [reflexivity|].
    assert (Hne : ModelManager.models self <> []) by (rewrite Hm; discriminate).
    destruct (select_model_nonempty self model_name Hne) as [key Hkey]. congruence.
Qed.

Lemma post_predict_handled (np_array_reshape : list float -> result matrix)
    (mm : ModelManager.t) (b : PredictionRequest.body) :
  List.length (PredictionRequest.body_features b) = 6 ->
  post_predict np_array_reshape mm b
  = Handled (ModelManager.predict np_array_reshape mm (PredictionRequest.body_features b)
               (match PredictionRequest.body_model_name b with
                | Some n => n
                | None => Some "logistic_regression"
                end)).
Proof.
  intros Hlen. unfold post_predict, predict, PredictionRequest.make.
  destruct (validate_features_spec (PredictionRequest.body_features b)) as [Hok _].
  now rewrite (Hok Hlen).
Qed.

Lemma filter_nil_iff {A : Type} (f : A -> bool) (l : list A) :
  filter f l = [] <-> forall x, In x l -> f x = false.
Proof.
  induction l as [|a l IH]; simpl.
  - split; [intros _ x [] | reflexivity].
  - destruct (f a) eqn:Hfa.
    + split; [discriminate | intros H; specialize (H a (or_introl eq_refl)); congruence].
    + rewrite IH. split.
      * intros H x [<-|Hin]; [exact Hfa | now apply H].
      * intros H x Hin. apply H. now right.
Qed.

(** X20: after a start, a POST with six features is answered by the 503
    "Nenhum modelo disponível" exactly when none of the three model
    artifacts deserialized, whatever the features and the requested
    name. *)
Theorem fresh_manager_503_iff_nothing_loaded
    (np_array_reshape : list float -> result matrix) (fs : FileSystem)
    (b : PredictionRequest.body) :
  List.length (PredictionRequest.body_features b) = 6 ->
  post_predict np_array_reshape (fst (ModelManager.init fs)) b
  = Handled (HTTPException 503 "Nenhum modelo disponível")
  <-> forall k, In k ["logistic_regression"; "random_forest"; "gradient_boosting"] ->
        deserializes fs k = false.
Proof.
  intros Hlen. rewrite (post_predict_handled _ _ _ Hlen).
  destruct (init_models_keys fs) as [Hkeys _].
  change (dict_keys known_names)
    with ["logistic_regression"; "random_forest"; "gradient_boosting"] in Hkeys.
  rewrite <- filter_nil_iff, <- Hkeys. split.
  - intros H. injection H as H. apply predict_503_inv in H. now rewrite H.
  - intros H. f_equal. unfold ModelManager.predict.
    rewrite select_model_empty; [reflexivity|].
    now destruct (ModelManager.models (fst (ModelManager.init fs))).
Qed.

Lemma fresh_manager_503_iff_nothing_loaded_witness :
  post_predict np_row (fst (ModelManager.init empty_fs))
    {| PredictionRequest.body_features := sample_features;
       PredictionRequest.body_model_name := None |}
  = Handled (HTTPException 503 "Nenhum modelo disponível")
  <-> forall k, In k ["logistic_regression"; "random_forest"; "gradient_boosting"] ->
        deserializes empty_fs k = false.
Proof.
  apply (fresh_manager_503_iff_nothing_loaded np_row empty_fs
           {| PredictionRequest.body_features := sample_features;
              PredictionRequest.body_model_name := None |}).
  reflexivity.
Defined.

(** X21: after a start, the [model_used] of every result is one of the
    three display names, and it is the display name of a key whose artifact
    deserialized. *)
Theorem fresh_manager_model_used (np_array_reshape : list float -> result matrix)
    (fs : FileSystem) (features : list float) (model_name : option string)
    (r : PredictionResponse.t) :
  ModelManager.predict np_array_reshape (fst (ModelManager.init fs)) features model_name
  = Return r ->
  In (PredictionResponse.model_used r)
     ["Regressão Logística"; "Random Forest"; "Gradient Boosting"]
  /\ exists key,
       deserializes fs key = true
       /\ dict_get key known_names = Some (PredictionResponse.model_used r).
Proof.
  intros Hr.
  apply predict_return_inv in Hr as (key & y & probability & name & Hsel & Hrun & ->).
  destruct (init_models_keys fs) as [Hkeys Hnames].
  destruct Hrun as [X model ys _ Hmodel _ _ Hname].
  rewrite Hnames in Hname. simpl PredictionResponse.model_used. split.
  - simpl in Hname.
    destruct (String.eqb key "logistic_regression");
      [injection Hname as <-; simpl; auto|].
    destruct (String.eqb key "random_forest");
      [injection Hname as <-; simpl; auto|].
    destruct (String.eqb key "gradient_boosting");
      [injection Hname as <-; simpl; auto | discriminate].
  - exists key. split; [|exact Hname].
    apply dict_get_in, dict_in_keys in Hmodel. rewrite Hkeys in Hmodel.
    now apply filter_In in Hmodel as [_ Hd].
Qed.

Lemma fresh_manager_model_used_witness :
  let r := result_of 0.75 (Some 0.8%float) "Regressão Logística" in
  In (PredictionResponse.model_used r)
     ["Regressão Logística"; "Random Forest"; "Gradient Boosting"]
  /\ exists key,
       deserializes sample_fs key = true
       /\ dict_get key known_names = Some (PredictionResponse.model_used r).
Proof.
  apply (fresh_manager_model_used np_row sample_fs sample_features (Some "random_forest")).
  vm_compute. reflexivity.
Defined.

(** X22: a POST with six features and no [model_name] is the dispatcher's
    answer for "logistic_regression"; with [model_name] null and a model
    loaded it is the dispatcher's answer for the first loaded key. *)
Theorem post_predict_default_and_null_name
    (np_array_reshape : list float -> result matrix) (mm : ModelManager.t)
    (features : list float) :
  List.length features = 6 ->
  post_predict np_array_reshape mm
    {| PredictionRequest.body_features := features;
       PredictionRequest.body_model_name := None |}
  = Handled (ModelManager.predict np_array_reshape mm features (Some "logistic_regression"))
  /\ forall first others,
       dict_keys (ModelManager.models mm) = first :: others ->
       post_predict np_array_reshape mm
         {| PredictionRequest.body_features := features;
            PredictionRequest.body_model_name := Some None |}
       = Handled (ModelManager.predict np_array_reshape mm features (Some first)).
Proof.
  intros Hlen. split.
  - now rewrite post_predict_handled.
  - intros first others Hkeys. rewrite post_predict_handled by exact Hlen.
    cbn [PredictionRequest.body_features PredictionRequest.body_model_name].
    f_equal. unfold ModelManager.predict.
    rewrite (select_model_absent mm None first others I Hkeys).
    rewrite select_model_present; [reflexivity|].
    apply dict_in_keys. rewrite Hkeys. now left.
Qed.

Lemma post_predict_default_and_null_name_witness :
  let mm := manager_of [("random_forest", plain_model 0.5)] in
  post_predict np_row mm
    {| PredictionRequest.body_features := sample_features;
       PredictionRequest.body_model_name := Some None |}
  = Handled (ModelManager.predict np_row mm sample_features (Some "random_forest")).
Proof.
  exact (proj2 (post_predict_default_and_null_name np_row
                  (manager_of [("random_forest", plain_model 0.5)])
                  sample_features eq_refl)
           "random_forest" [] eq_refl).
Defined.
